(** * Shallow embedding of claude-code-router-switcher

    Sources embedded:
    - [src/claude_code_router_switcher/config_manager.py]  (module [ConfigManager])
    - [src/claude_code_router_switcher/cli.py]             (module [Cli])

    Python values are modelled as follows.
    - JSON values decoded by [json.load] / [response.json()] are [json].
    - A Python [dict] with string keys is an association list in insertion
      order ([dict]); [d[k] = v] replaces in place or appends, [d.pop(k)]
      removes the key.
    - The configuration document is a typed record ([config]): the optional
      "Router" and "Providers" sections and the remaining top-level keys.
    - The file system, the number of writes to the config file and the
      console are the state of a small state-and-exception monad [M].
    - [requests.get] is an oracle [url -> reply]. *)

From Stdlib Require Import String Ascii List ZArith Bool Lia.
Import ListNotations.
Open Scope string_scope.
Set Warnings "-register-all".

(* ------------------------------------------------------------------ *)
(** ** JSON values and Python operations on them *)

Inductive json : Type :=
| JNull
| JBool (b : bool)
| JInt (z : Z)
| JStr (s : string)
| JList (l : list json)
| JDict (d : list (string * json)).

Definition dict := list (string * json).

(** Association lists with Python dict semantics. *)
Fixpoint aget {V} (k : string) (d : list (string * V)) : option V :=
  match d with
  | [] => None
  | (k', v) :: d' => if String.eqb k k' then Some v else aget k d'
  end.

(** [d[k] = v]: replace the value in place, or append a new key. *)
Fixpoint aset {V} (k : string) (v : V) (d : list (string * V)) : list (string * V) :=
  match d with
  | [] => [(k, v)]
  | (k', v') :: d' => if String.eqb k k' then (k', v) :: d' else (k', v') :: aset k v d'
  end.

(** [d.pop(k, None)]. *)
Fixpoint apop {V} (k : string) (d : list (string * V)) : list (string * V) :=
  match d with
  | [] => []
  | (k', v') :: d' => if String.eqb k k' then d' else (k', v') :: apop k d'
  end.

Definition amem {V} (k : string) (d : list (string * V)) : bool :=
  match aget k d with Some _ => true | None => false end.

(** Python truthiness ([bool(v)]). *)
Definition py_truthy (v : json) : bool :=
  match v with
  | JNull => false
  | JBool b => b
  | JInt z => negb (Z.eqb z 0)
  | JStr s => negb (String.eqb s "")
  | JList l => match l with [] => false | _ => true end
  | JDict d => match d with [] => false | _ => true end
  end.

(** Python [x == y] where the left operand [x] is hashable (a [str], an
    [int], a [bool] or [None]): this is the only way the program compares
    JSON values ([model_name in models], membership in a [set]).
    [True == 1] and [False == 0] as in Python. *)
Definition py_eq (x y : json) : bool :=
  match x, y with
  | JNull, JNull => true
  | JStr s, JStr t => String.eqb s t
  | JInt a, JInt b => Z.eqb a b
  | JBool a, JBool b => Bool.eqb a b
  | JInt a, JBool b => Z.eqb a (if b then 1 else 0)
  | JBool a, JInt b => Z.eqb (if a then 1 else 0) b
  | _, _ => false
  end.

Definition hashable (x : json) : bool :=
  match x with JList _ | JDict _ => false | _ => true end.

(** [x in l] for a list. *)
Definition py_in (x : json) (l : list json) : bool := existsb (py_eq x) l.

(** [l.remove(x)] once [x in l] holds: removes the first equal element. *)
Fixpoint remove_first (x : json) (l : list json) : list json :=
  match l with
  | [] => []
  | y :: l' => if py_eq x y then l' else y :: remove_first x l'
  end.

(* ------------------------------------------------------------------ *)
(** ** String operations of Python's [str] *)

Definition endswith (s suf : string) : bool :=
  let n := String.length s in
  let m := String.length suf in
  (m <=? n)%nat && String.eqb (substring (n - m) m s) suf.

(** [sub in s] for strings. *)
Definition str_contains (sub s : string) : bool :=
  match String.index 0 sub s with Some _ => true | None => false end.

(** [s.find(sub)], used only after [sub in s] holds. *)
Definition str_find (sub s : string) : nat :=
  match String.index 0 sub s with Some n => n | None => 0 end.

(** [s[:n]] for [0 <= n]. *)
Definition str_take (n : nat) (s : string) : string := substring 0 n s.

(** [s[:-3]]. *)
Definition str_drop_last3 (s : string) : string :=
  substring 0 (String.length s - 3) s.

Fixpoint drop_while_slash (l : list ascii) : list ascii :=
  match l with
  | c :: l' => if Ascii.eqb c "/"%char then drop_while_slash l' else l
  | [] => []
  end.

(** [s.rstrip('/')]: removes every trailing slash. *)
Definition rstrip_slash (s : string) : string :=
  string_of_list_ascii (rev (drop_while_slash (rev (list_ascii_of_string s)))).

(** ASCII characters for which [str.isspace()] holds:
    tab, newline, vertical tab, form feed, carriage return (9-13), the
    separators 28-31 and space (32). *)
Definition is_space (c : ascii) : bool :=
  let n := nat_of_ascii c in (((9 <=? n) && (n <=? 13)) || ((28 <=? n) && (n <=? 32)))%nat.

Fixpoint drop_spaces (l : list ascii) : list ascii :=
  match l with
  | c :: l' => if is_space c then drop_spaces l' else l
  | [] => []
  end.

(** [s.strip()]. *)
Definition strip (s : string) : string :=
  string_of_list_ascii
    (rev (drop_spaces (rev (drop_spaces (list_ascii_of_string s))))).

Definition lower_char (c : ascii) : ascii :=
  let n := nat_of_ascii c in
  if ((65 <=? n) && (n <=? 90))%nat then ascii_of_nat (n + 32) else c.

(** [s.lower()] on ASCII. *)
Definition lower (s : string) : string :=
  string_of_list_ascii (map lower_char (list_ascii_of_string s)).

(** [s.split(",", 1)] when ["," in s]: the parts before and after the
    first comma. *)
Fixpoint split_first_comma (l : list ascii) : list ascii * list ascii :=
  match l with
  | [] => ([], [])
  | c :: l' =>
      if Ascii.eqb c ","%char then ([], l')
      else let (a, b) := split_first_comma l' in (c :: a, b)
  end.

Definition split1 (s : string) : string * string :=
  let (a, b) := split_first_comma (list_ascii_of_string s) in
  (string_of_list_ascii a, string_of_list_ascii b).

(** [s.rsplit(",", 1)] when ["," in s]: the parts before and after the
    last comma. *)
Definition rsplit1 (s : string) : string * string :=
  let (b, a) := split_first_comma (rev (list_ascii_of_string s)) in
  (string_of_list_ascii (rev a), string_of_list_ascii (rev b)).

(* ------------------------------------------------------------------ *)
(** ** The configuration document *)

(** A provider record of the "Providers" array.  [models] is [None] when
    the record has no "models" key ([provider.get("models", [])]). *)
Record provider := mkProvider {
  name : string;
  api_base_url : string;
  api_key : option string;
  models : option (list json);
  extra : dict
}.

(** The top-level JSON object: the optional "Router" and "Providers"
    sections, and every other top-level key. *)
Record config := mkConfig {
  Router : option dict;
  Providers : option (list provider);
  rest : dict
}.

Definition set_Router (c : config) (r : dict) : config :=
  mkConfig (Some r) (Providers c) (rest c).

Definition set_Providers (c : config) (ps : list provider) : config :=
  mkConfig (Router c) (Some ps) (rest c).

Definition set_models (p : provider) (ms : list json) : provider :=
  mkProvider (name p) (api_base_url p) (api_key p) (Some ms) (extra p).

(** [config.get("Router", {})]. *)
Definition router_of (c : config) : dict :=
  match Router c with Some r => r | None => [] end.

(** [config.get("Providers", [])]. *)
Definition providers_of (c : config) : list provider :=
  match Providers c with Some ps => ps | None => [] end.

(** [provider.get("models", [])]. *)
Definition models_of (p : provider) : list json :=
  match models p with Some ms => ms | None => [] end.

(* ------------------------------------------------------------------ *)
(** ** Effects: file, write counter, console, exceptions *)

Inductive exn : Type :=
| FileNotFoundError
| ValueError (msg : string)
| TypeError
| AttributeError
| SystemExit (code : Z).

Inductive res (A : Type) : Type :=
| Ok (a : A)
| Err (e : exn).
Arguments Ok {A} a.
Arguments Err {A} e.

(** [file] is the content of the config file ([None]: it does not exist),
    [writes] counts the calls of [save_config], [console] is the printed
    output in order. *)
Record store := mkStore {
  file : option config;
  writes : nat;
  console : list string
}.

Definition M (A : Type) : Type := store -> res A * store.

Definition ret {A} (a : A) : M A := fun s => (Ok a, s).

Definition bind {A B} (m : M A) (k : A -> M B) : M B :=
  fun s => match m s with
           | (Ok a, s') => k a s'
           | (Err e, s') => (Err e, s')
           end.

Notation "x <- m ;; k" := (bind m (fun x => k))
  (at level 61, m at next level, right associativity).
Notation "m ;; k" := (bind m (fun _ => k)) (at level 61, right associativity).

Definition raise {A} (e : exn) : M A := fun s => (Err e, s).

Definition lift {A} (r : res A) : M A := fun s => (r, s).

(** [console.print(msg)]. *)
Definition say (msg : string) : M unit :=
  fun s => (Ok tt, mkStore (file s) (writes s) (app (console s) [msg])).

(** [try: m except ...]: the handler returns [None] for exceptions that
    the [except] clauses do not catch. *)
Definition try_except {A} (m : M A) (h : exn -> option (M A)) : M A :=
  fun s => match m s with
           | (Err e, s') => match h e with Some k => k s' | None => (Err e, s') end
           | r => r
           end.

(** [for x in xs: body] threading an accumulator. *)
Fixpoint for_each {A B} (xs : list A) (acc : B) (body : A -> B -> M B) : M B :=
  match xs with
  | [] => ret acc
  | x :: xs' => acc' <- body x acc ;; for_each xs' acc' body
  end.

(* ------------------------------------------------------------------ *)
(** ** HTTP, and Python operations used on response bodies *)

(** The outcome of [requests.get(url, headers=..., timeout=10)]: a response
    whose body decodes to [body], or a [requests.RequestException]. *)
Inductive reply : Type :=
| Response (status_code : Z) (body : json)
| RequestException (msg : string).

(** The network: the reply to a GET of [url], with the optional value of
    the Authorization header. *)
Definition http := string -> option string -> reply.

Definition nl : string := String (ascii_of_nat 10) EmptyString.

(** [key in v] for a string [key]. *)
Definition py_contains_str (key : string) (v : json) : res bool :=
  match v with
  | JDict d => Ok (amem key d)
  | JList l => Ok (py_in (JStr key) l)
  | JStr s => Ok (str_contains key s)
  | _ => Err TypeError
  end.

(** [v[key]] for a string [key], once [key in v] holds. *)
Definition py_getitem_str (key : string) (v : json) : res json :=
  match v with
  | JDict d => match aget key d with Some x => Ok x | None => Err TypeError end
  | _ => Err TypeError
  end.

(** [for item in v]. *)
Definition py_iter (v : json) : res (list json) :=
  match v with
  | JList l => Ok l
  | JDict d => Ok (map (fun kv => JStr (fst kv)) d)
  | JStr s => Ok (map (fun c => JStr (String c EmptyString)) (list_ascii_of_string s))
  | _ => Err TypeError
  end.

Fixpoint dedup (seen : list json) (l : list json) : list json :=
  match l with
  | [] => rev seen
  | x :: l' => if py_in x seen then dedup seen l' else dedup (x :: seen) l'
  end.

(** [set(v)].  The iteration order of a Python set is not specified; the
    embedding iterates a set in the order of first occurrence. *)
Definition py_set (v : json) : res (list json) :=
  match py_iter v with
  | Ok items => if forallb hashable items then Ok (dedup [] items) else Err TypeError
  | Err e => Err e
  end.

(** [[item["id"] for item in items if "id" in item]]. *)
Fixpoint collect_ids (items : list json) : res (list json) :=
  match items with
  | [] => Ok []
  | item :: items' =>
      match py_contains_str "id" item with
      | Err e => Err e
      | Ok false => collect_ids items'
      | Ok true =>
          match py_getitem_str "id" item, collect_ids items' with
          | Ok x, Ok xs => Ok (x :: xs)
          | Err e, _ => Err e
          | _, Err e => Err e
          end
      end
  end.

(** The candidate URLs shared by [validate_provider_endpoint] and
    [fetch_models_from_endpoint]: the ["/v1"] URL and the URL without it. *)
Definition candidate_urls (base_url : string) : string * string :=
  if endswith base_url "/v1" || str_contains "/v1/" base_url then
    if endswith base_url "/v1" then
      (base_url ++ "/models", str_drop_last3 base_url ++ "/models")
    else
      let base_part := str_take (str_find "/v1/" base_url) base_url in
      (base_part ++ "/v1/models", base_part ++ "/models")
  else (base_url ++ "/v1/models", base_url ++ "/models").

Definition is_2xx (code : Z) : bool := (200 <=? code)%Z && (code <? 300)%Z.
Definition is_4xx (code : Z) : bool := (400 <=? code)%Z && (code <? 500)%Z.

(* ------------------------------------------------------------------ *)
(** ** [ConfigManager] (config_manager.py) *)

Module ConfigManager.

(** [load_config]: [FileNotFoundError] when the file does not exist.  The
    file content is a decoded document (invalid JSON is not modelled). *)
Definition load_config : M config :=
  fun s => match file s with
           | None => (Err FileNotFoundError, s)
           | Some c => (Ok c, s)
           end.

(** [save_config]: overwrites the whole file with [c]. *)
Definition save_config (c : config) : M unit :=
  fun s => (Ok tt, mkStore (Some c) (S (writes s)) (console s)).

Definition get_router_config : M dict :=
  c <- load_config ;; ret (router_of c).

Definition update_router_config (router_config : dict) : M unit :=
  c <- load_config ;; save_config (set_Router c router_config).

Definition get_providers : M (list provider) :=
  c <- load_config ;; ret (providers_of c).

(** The loop of [_check_duplicate_provider]: the first provider with the
    same name or the same base URL raises. *)
Fixpoint check_duplicate_loop (new_provider : provider) (ps : list provider) : M unit :=
  match ps with
  | [] => ret tt
  | p :: ps' =>
      if String.eqb (name p) (name new_provider) then
        raise (ValueError ("Provider with name '" ++ name new_provider ++ "' already exists"))
      else if String.eqb (api_base_url p) (api_base_url new_provider) then
        raise (ValueError ("Provider with base URL '" ++ api_base_url new_provider
                           ++ "' already exists"))
      else check_duplicate_loop new_provider ps'
  end.

Definition _check_duplicate_provider (new_provider : provider) : M unit :=
  ps <- get_providers ;; check_duplicate_loop new_provider ps.

Definition add_provider (p : provider) : M unit :=
  _check_duplicate_provider p ;;
  c <- load_config ;;
  save_config (set_Providers c (app (providers_of c) [p])).

(** The loop of [add_model_to_provider] over the providers:
    [None] when no provider has the name; [Some None] when the first such
    provider already has the model (nothing saved); [Some (Some ps')] with
    the updated providers otherwise. *)
Fixpoint add_model_loop (provider_name : string) (model_name : json)
    (ps : list provider) : option (option (list provider)) :=
  match ps with
  | [] => None
  | p :: ps' =>
      if String.eqb (name p) provider_name then
        if negb (py_in model_name (models_of p)) then
          Some (Some (set_models p (app (models_of p) [model_name]) :: ps'))
        else Some None
      else match add_model_loop provider_name model_name ps' with
           | Some (Some ps'') => Some (Some (p :: ps''))
           | r => r
           end
  end.

Definition add_model_to_provider (provider_name : string) (model_name : json) : M unit :=
  c <- load_config ;;
  match add_model_loop provider_name model_name (providers_of c) with
  | Some (Some ps') => save_config (set_Providers c ps')
  | Some None => ret tt
  | None => raise (ValueError ("Provider '" ++ provider_name ++ "' not found"))
  end.

(** [{provider["name"]: provider.get("models", []) for provider in providers}]. *)
Definition get_all_models : M (list (string * list json)) :=
  ps <- get_providers ;;
  ret (fold_left (fun d p => aset (name p) (models_of p) d) ps []).

Definition find_providers_for_model (model_name : string) : M (list string) :=
  d <- get_all_models ;;
  ret (map fst (filter (fun kv => py_in (JStr model_name) (snd kv)) d)).

Definition validate_provider_model (provider_name model_name : string) : M bool :=
  d <- get_all_models ;;
  ret (py_in (JStr model_name)
         (match aget provider_name d with Some ms => ms | None => [] end)).

Definition delete_provider (provider_name : string) : M unit :=
  c <- load_config ;;
  let providers := providers_of c in
  let providers' := filter (fun p => negb (String.eqb (name p) provider_name)) providers in
  if Nat.eqb (length providers') (length providers) then
    raise (ValueError ("Provider '" ++ provider_name ++ "' not found"))
  else save_config (set_Providers c providers').

(** The loop of [delete_model]: removes the first occurrence of the model
    from every provider that has it; the flag is [model_found]. *)
Fixpoint delete_model_loop (model_name : json) (ps : list provider) : list provider * bool :=
  match ps with
  | [] => ([], false)
  | p :: ps' =>
      let (ps'', found) := delete_model_loop model_name ps' in
      if py_in model_name (models_of p) then
        (set_models p (remove_first model_name (models_of p)) :: ps'', true)
      else (p :: ps'', found)
  end.

(** When "Providers" is absent nothing can be found, so the document is
    saved only when the section exists, as in the source. *)
Definition delete_model (model_name : json) : M unit :=
  c <- load_config ;;
  let (providers', model_found) := delete_model_loop model_name (providers_of c) in
  if negb model_found then
    raise (ValueError ("Model '" ++ match model_name with JStr m => m | _ => "" end
                       ++ "' not found in any provider"))
  else save_config (set_Providers c providers').

(** [ConfigManager.validate_provider_endpoint]: probes without an API key. *)
Definition validate_provider_endpoint (get : http) (base_url0 : string) : string :=
  let base_url := rstrip_slash base_url0 in
  let (v1_url, no_v1_url) := candidate_urls base_url in
  let try_without_v1 :=
    match get no_v1_url None with
    | Response code _ =>
        if is_2xx code then
          (if endswith base_url "/v1" then str_drop_last3 base_url else base_url)
        else if is_4xx code then
          (if endswith base_url "/v1" then str_drop_last3 base_url else base_url)
        else base_url
    | RequestException _ => base_url
    end in
  match get v1_url None with
  | Response code _ =>
      if is_2xx code then
        (if endswith base_url "/v1" then base_url else base_url ++ "/v1")
      else if Z.eqb code 404 then try_without_v1
      else if is_4xx code then
        (if endswith base_url "/v1" then base_url else base_url ++ "/v1")
      else base_url
  | RequestException _ => try_without_v1
  end.

End ConfigManager.

(* ------------------------------------------------------------------ *)
(** ** The CLI commands (cli.py) *)

Fixpoint digits_of (fuel : nat) (n : Z) (acc : string) : string :=
  match fuel with
  | O => acc
  | S fuel' =>
      let d := String (ascii_of_nat (48 + Z.to_nat (n mod 10))) EmptyString in
      if (n <? 10)%Z then d ++ acc else digits_of fuel' (n / 10)%Z (d ++ acc)
  end.

(** [str(z)] for an integer. *)
Definition z_to_string (z : Z) : string :=
  if (z <? 0)%Z then "-" ++ digits_of 64 (- z) "" else digits_of 64 z "".

(** [str(v)] (f-string formatting) for the scalars the CLI prints. *)
Definition py_str (v : json) : string :=
  match v with
  | JStr s => s
  | JInt z => z_to_string z
  | JBool true => "True"
  | JBool false => "False"
  | JNull => "None"
  | _ => "<container>"
  end.

(** [", ".join(xs)]: every element must be a [str]. *)
Fixpoint join_str (xs : list json) : res string :=
  match xs with
  | [] => Ok ""
  | [JStr s] => Ok s
  | JStr s :: xs' => match join_str xs' with Ok r => Ok (s ++ ", " ++ r) | Err e => Err e end
  | _ => Err TypeError
  end.

(** The outcome of [subprocess.run(["ccr", "stop"], check=True)]. *)
Inductive ccr_result : Type :=
| CcrStopped
| CcrCalledProcessError
| CcrNotFound.

Module Cli.
Import ConfigManager.

(** The confirmation prompt: [auto_confirm], or the answer typed at
    [input("ARE YOU SURE?! [y/N]: ")] is "y" after [.strip().lower()]. *)
Definition confirmed (auto_confirm : bool) (answer : string) : bool :=
  auto_confirm || String.eqb (lower (strip answer)) "y".

(** The table of [list_models]: one row per provider. *)
Definition list_models : M unit :=
  models_by_provider <- get_all_models ;;
  match models_by_provider with
  | [] => say "[yellow]No providers or models found in config[/yellow]"
  | _ => for_each models_by_provider tt (fun kv _ =>
           match kv with
           | (provider, []) => say (provider ++ " | [red]No models[/red]")
           | (provider, ms) =>
               match join_str ms with
               | Ok s => say (provider ++ " | " ++ s)
               | Err e => raise e
               end
           end)
  end.

Definition catch_file_not_found {A} (m : M A) : M A :=
  try_except m (fun e => match e with
                         | FileNotFoundError =>
                             Some (say "[red]Error: Config file not found[/red]" ;;
                                   raise (SystemExit 1))
                         | _ => None
                         end).

Definition valid_types_change : list string :=
  ["default"; "background"; "think"; "longContext"; "webSearch"].

Fixpoint join_plain (xs : list string) : string :=
  match xs with
  | [] => ""
  | [x] => x
  | x :: xs' => x ++ ", " ++ join_plain xs'
  end.

(** [change_router]; [ccr] is the outcome of the restart command. *)
Definition change_router (router_type model_value : string) (no_restart : bool)
    (ccr : ccr_result) : M unit :=
  if negb (existsb (String.eqb router_type) valid_types_change) then
    say ("[red]Invalid router type: " ++ router_type ++ "[/red]" ++ nl
         ++ "Valid types: " ++ join_plain valid_types_change) ;;
    raise (SystemExit 1)
  else catch_file_not_found (
    final_value <-
      (if str_contains "," model_value then
         let (a, b) := split1 model_value in
         let provider_name := strip a in
         let model_name := strip b in
         ok <- validate_provider_model provider_name model_name ;;
         if negb ok then
           say ("[red]Error: Model '" ++ model_name ++ "' not found in provider '"
                ++ provider_name ++ "'[/red]") ;;
           say (nl ++ "[yellow]Available models:[/yellow]") ;;
           list_models ;;
           raise (SystemExit 1)
         else ret (provider_name ++ "," ++ model_name)
       else
         let model_name := strip model_value in
         matching_providers <- find_providers_for_model model_name ;;
         match matching_providers with
         | [] =>
             say ("[red]Error: Model '" ++ model_name ++ "' not found in any provider[/red]") ;;
             say (nl ++ "[yellow]Available models:[/yellow]") ;;
             list_models ;;
             raise (SystemExit 1)
         | [provider_name] => ret (provider_name ++ "," ++ model_name)
         | _ =>
             say ("[red]Error: Model '" ++ model_name ++ "' found in multiple providers: "
                  ++ join_plain matching_providers ++ "[/red]") ;;
             say (nl ++ "[yellow]Please specify provider explicitly: <provider>,"
                  ++ model_name ++ "[/yellow]") ;;
             say (nl ++ "[yellow]Available models:[/yellow]") ;;
             list_models ;;
             raise (SystemExit 1)
         end) ;;
    router_config <- get_router_config ;;
    update_router_config (aset router_type (JStr final_value) router_config) ;;
    say ("[green]Updated " ++ router_type ++ " to: " ++ final_value ++ "[/green]") ;;
    (if negb no_restart then
       match ccr with
       | CcrStopped =>
           say "[blue]Issued ccr stop command[/blue]" ;;
           say "[blue]ccr service was stopped so new model can activate[/blue]"
       | CcrCalledProcessError =>
           say "[yellow]Warning: Failed to issue ccr stop command[/yellow]"
       | CcrNotFound =>
           say "[yellow]Warning: ccr command not found. Please ensure it is installed.[/yellow]"
       end
     else say "[blue]Configuration updated without restarting CCR service[/blue]") ;;
    (if String.eqb router_type "longContext" then
       say (nl ++ "[yellow]Tip: Set longContextThreshold next to enable:[/yellow]") ;;
       say "[yellow]  ccs set longContextThreshold <integer>[/yellow]"
     else ret tt)).

(** Python's [long_context and (long_context.endswith(f",{model_name}") or
    long_context == model_name)], read as a condition. *)
Definition is_long_context_model (long_context : json) (model_name : string) : res bool :=
  if negb (py_truthy long_context) then Ok false
  else match long_context with
       | JStr s => Ok (endswith s ("," ++ model_name) || String.eqb s model_name)
       | _ => Err AttributeError
       end.

(** [cli.add_provider].  [validate_provider_endpoint] raises no exception
    in the embedding, so its [except Exception] fallback is not reached;
    the [DEBUG] line goes to stdout, not to the console, and is omitted. *)
Definition add_provider (get : http) (name0 base_url : string) (api_key0 : option string)
    : M unit :=
  let validated_base_url := validate_provider_endpoint get base_url in
  let key := match api_key0 with
             | Some k => if String.eqb k "" then None else Some k
             | None => None
             end in
  let provider := mkProvider name0 validated_base_url key (Some []) [] in
  try_except (
    ConfigManager.add_provider provider ;;
    (if negb (String.eqb validated_base_url base_url) then
       say ("[green]Added provider: " ++ name0 ++ " (base URL adjusted to: "
            ++ validated_base_url ++ ")[/green]")
     else say ("[green]Added provider: " ++ name0 ++ "[/green]")) ;;
    say "[yellow]Tip: Run 'ccs update' to fetch models from the new provider[/yellow]")
    (fun e => match e with
              | ValueError msg => Some (say ("[red]Error: " ++ msg ++ "[/red]") ;; raise (SystemExit 1))
              | FileNotFoundError =>
                  Some (say "[red]Error: Config file not found[/red]" ;; raise (SystemExit 1))
              | _ => None
              end).

Definition catch_value_or_file {A} (m : M A) : M A :=
  try_except m (fun e => match e with
                         | ValueError msg =>
                             Some (say ("[red]Error: " ++ msg ++ "[/red]") ;; raise (SystemExit 1))
                         | FileNotFoundError =>
                             Some (say "[red]Error: Config file not found[/red]" ;;
                                   raise (SystemExit 1))
                         | _ => None
                         end).

(** [cli.add_model]. *)
Definition add_model (provider model_name : string) : M unit :=
  catch_value_or_file (
    add_model_to_provider provider (JStr model_name) ;;
    say ("[green]Added model '" ++ model_name ++ "' to provider '" ++ provider ++ "'[/green]")).

(** [cli.delete_provider]. *)
Definition delete_provider (provider_name : string) (auto_confirm : bool) (answer : string)
    : M unit :=
  if negb (confirmed auto_confirm answer) then say "[yellow]Deletion cancelled[/yellow]"
  else catch_value_or_file (
    ConfigManager.delete_provider provider_name ;;
    say ("[green]Deleted provider: " ++ provider_name ++ "[/green]")).

(** [cli.delete_model]; [answer] is the line typed at the prompt. *)
Definition delete_model (model_name : string) (auto_confirm : bool) (answer : string) : M unit :=
  if negb (confirmed auto_confirm answer) then say "[yellow]Deletion cancelled[/yellow]"
  else try_except (
    router_config <- get_router_config ;;
    let long_context := match aget "longContext" router_config with
                        | Some v => v | None => JStr "" end in
    let has_threshold := amem "longContextThreshold" router_config in
    is_lc <- lift (is_long_context_model long_context model_name) ;;
    ConfigManager.delete_model (JStr model_name) ;;
    if is_lc && has_threshold then
      router_config' <- get_router_config ;;
      update_router_config (apop "longContextThreshold" router_config') ;;
      say ("[green]Deleted model: " ++ model_name ++ "[/green]" ++ nl
           ++ "[yellow]Also removed longContextThreshold (longContext model was deleted)[/yellow]")
    else say ("[green]Deleted model: " ++ model_name ++ "[/green]"))
    (fun e => match e with
              | ValueError msg => Some (say ("[red]Error: " ++ msg ++ "[/red]") ;; raise (SystemExit 1))
              | FileNotFoundError =>
                  Some (say "[red]Error: Config file not found[/red]" ;; raise (SystemExit 1))
              | _ => None
              end).

Definition valid_types_delete : list string := ["background"; "think"; "longContext"; "webSearch"].

(** [delete_router]. *)
Definition delete_router (router_type : string) (auto_confirm : bool) (answer : string) : M unit :=
  if negb (existsb (String.eqb router_type) valid_types_delete) then
    say ("[red]Invalid router type: " ++ router_type ++ "[/red]" ++ nl
         ++ "Valid types: " ++ join_plain valid_types_delete ++ nl
         ++ "[yellow]Note: 'default' cannot be deleted[/yellow]") ;;
    raise (SystemExit 1)
  else if negb (confirmed auto_confirm answer) then say "[yellow]Deletion cancelled[/yellow]"
  else catch_file_not_found (
    router_config <- get_router_config ;;
    if negb (amem router_type router_config) then
      say ("[yellow]Router '" ++ router_type ++ "' is not set[/yellow]")
    else
      let removed_threshold :=
        String.eqb router_type "longContext" && amem "longContextThreshold" router_config in
      let router_config1 :=
        if removed_threshold then apop "longContextThreshold" router_config else router_config in
      update_router_config (apop router_type router_config1) ;;
      if removed_threshold then
        say ("[green]Deleted router: " ++ router_type ++ "[/green]" ++ nl
             ++ "[yellow]Also removed longContextThreshold[/yellow]")
      else say ("[green]Deleted router: " ++ router_type ++ "[/green]")).

(** [set_long_context_threshold]. *)
Definition set_long_context_threshold (threshold : Z) : M unit :=
  catch_file_not_found (
    router_config <- get_router_config ;;
    let long_context := aget "longContext" router_config in
    if negb (match long_context with Some v => py_truthy v | None => false end) then
      say "[red]Error: longContext model must be set before setting longContextThreshold[/red]" ;;
      say (nl ++ "[yellow]Use 'ccs change longContext <provider>,<model>' to set it first[/yellow]") ;;
      raise (SystemExit 1)
    else
      update_router_config (aset "longContextThreshold" (JInt threshold) router_config) ;;
      say ("[green]Updated longContextThreshold to: " ++ z_to_string threshold ++ "[/green]")).

(** The body of the loop of [fetch_models_from_endpoint] for an HTTP 200
    response with decoded body [data]. *)
Definition models_of_body (url : string) (data : json) : M json :=
  has_data <- lift (py_contains_str "data" data) ;;
  if has_data then
    items <- lift (match py_getitem_str "data" data with
                   | Ok v => py_iter v
                   | Err e => Err e
                   end) ;;
    ids <- lift (collect_ids items) ;;
    ret (JList ids)
  else
    has_models <- lift (py_contains_str "models" data) ;;
    if has_models then lift (py_getitem_str "models" data)
    else match data with
         | JList _ => ret data
         | _ =>
             say ("[yellow]Warning: Unexpected response format from " ++ url ++ "[/yellow]") ;;
             ret (JList [])
         end.

(** The loop over [urls_to_try]; [headers] is the Authorization header. *)
Fixpoint fetch_loop (get : http) (headers : option string) (urls : list string) : M json :=
  match urls with
  | [] => ret (JList [])
  | url :: urls' =>
      match get url headers with
      | RequestException e =>
          say ("[yellow]Warning: Failed to fetch models from " ++ url ++ ": " ++ e ++ "[/yellow]") ;;
          fetch_loop get headers urls'
      | Response code data =>
          if Z.eqb code 200 then models_of_body url data
          else if Z.eqb code 401 then
            say ("[yellow]Warning: Authentication required for " ++ url ++ "[/yellow]") ;;
            fetch_loop get headers urls'
          else if Z.eqb code 404 then fetch_loop get headers urls'
          else
            say ("[yellow]Warning: HTTP " ++ z_to_string code ++ " from " ++ url ++ "[/yellow]") ;;
            fetch_loop get headers urls'
      end
  end.

Definition fetch_models_from_endpoint (get : http) (base_url0 : string)
    (api_key : option string) : M json :=
  let base_url := if endswith base_url0 "/" then
                    substring 0 (String.length base_url0 - 1) base_url0
                  else base_url0 in
  let (v1_url, no_v1_url) := candidate_urls base_url in
  let headers := match api_key with
                 | Some k => if String.eqb k "" then None else Some ("Bearer " ++ k)
                 | None => None
                 end in
  fetch_loop get headers [v1_url; no_v1_url].

(** The model names referenced by the router: [used_models] of
    [update_models]. *)
Definition used_models (router_config : dict) : list string :=
  fold_left (fun used kv =>
               match kv with
               | (router_type, JStr value) =>
                   if negb (String.eqb router_type "longContextThreshold")
                      && str_contains "," value
                   then app used [strip (snd (rsplit1 value))]
                   else used
               | _ => used
               end) router_config [].

(** [model not in used_models]: a set of [str] contains only [str]s. *)
Definition in_used (model : json) (used : list string) : bool :=
  match model with
  | JStr m => existsb (String.eqb m) used
  | _ => false
  end.

(** The three report lists of [update_models], each entry tagged with its
    provider. *)
Record stats := mkStats {
  added_models : list (string * json);
  removed_models : list (string * json);
  retained_models : list (string * json)
}.

(** The part of the loop body of [update_models] after the fetch, for the
    provider [provider_name] whose stored models (as a set) are
    [current_models] and whose fetched models (as a set) are
    [fetched_models]. *)
Definition reconcile_provider (provider_name : string)
    (current_models fetched_models : list json) (st : stats) : M stats :=
  match fetched_models with
  | [] =>
      say ("[yellow]No models fetched from " ++ provider_name
           ++ ". Keeping existing models.[/yellow]") ;;
      ret (mkStats (added_models st) (removed_models st)
             (app (retained_models st) (map (pair provider_name) current_models)))
  | _ =>
      let models_to_add := filter (fun m => negb (py_in m current_models)) fetched_models in
      let models_to_remove := filter (fun m => negb (py_in m fetched_models)) current_models in
      let models_to_retain := filter (fun m => py_in m fetched_models) current_models in
      added <- for_each models_to_add (added_models st) (fun model added =>
                 try_except
                   (add_model_to_provider provider_name model ;;
                    ret (app added [(provider_name, model)]))
                   (fun e => match e with
                             | ValueError msg =>
                                 Some (say ("[red]Error adding model " ++ py_str model ++ " to "
                                            ++ provider_name ++ ": " ++ msg ++ "[/red]") ;;
                                       ret added)
                             | _ => None
                             end)) ;;
      router_config <- get_router_config ;;
      let used := used_models router_config in
      rr <- for_each models_to_remove (removed_models st, retained_models st)
              (fun model rr =>
                 let (removed, retained) := rr in
                 if negb (in_used model used) then
                   try_except
                     (ConfigManager.delete_model model ;;
                      ret (app removed [(provider_name, model)], retained))
                     (fun e => match e with
                               | ValueError msg =>
                                   Some (say ("[red]Error removing model " ++ py_str model
                                              ++ ": " ++ msg ++ "[/red]") ;;
                                         ret (removed, retained))
                               | _ => None
                               end)
                 else ret (removed, app retained [(provider_name, model)])) ;;
      let (removed, retained) := rr in
      ret (mkStats added removed (app retained (map (pair provider_name) models_to_retain)))
  end.

(** The loop body of [update_models] for one provider of the snapshot
    taken at its start. *)
Definition process_provider (get : http) (p : provider) (st : stats) : M stats :=
  current_models <- lift (py_set (JList (models_of p))) ;;
  say ("[blue]Fetching models from " ++ name p ++ " (" ++ api_base_url p ++ ")...[/blue]") ;;
  fetched <- fetch_models_from_endpoint get (api_base_url p) (api_key p) ;;
  fetched_models <- lift (py_set fetched) ;;
  reconcile_provider (name p) current_models fetched_models st.

Fixpoint say_entries (xs : list (string * json)) : M unit :=
  match xs with
  | [] => ret tt
  | (p, m) :: xs' => say ("  • " ++ p ++ ": " ++ py_str m) ;; say_entries xs'
  end.

(** The retained models grouped by provider, in order of first appearance. *)
Definition group_by_provider (xs : list (string * json)) : list (string * list json) :=
  fold_left (fun (d : list (string * list json)) (pm : string * json) =>
               let (p, m) := pm in
               match aget p d with
               | Some ms => aset p (app ms [m]) d
               | None => aset p [m] d
               end) xs [].

Definition report (st : stats) : M unit :=
  say (nl ++ "[bold green]Update completed![/bold green]") ;;
  (match added_models st with
   | [] => ret tt
   | xs => say (nl ++ "[green]Added " ++ z_to_string (Z.of_nat (length xs))
                ++ " model(s):[/green]") ;; say_entries xs
   end) ;;
  (match removed_models st with
   | [] => ret tt
   | xs => say (nl ++ "[red]Removed " ++ z_to_string (Z.of_nat (length xs))
                ++ " model(s):[/red]") ;; say_entries xs
   end) ;;
  match retained_models st with
  | [] => ret tt
  | xs =>
      say (nl ++ "[blue]Retained " ++ z_to_string (Z.of_nat (length xs)) ++ " model(s):[/blue]") ;;
      for_each (group_by_provider xs) tt (fun pms _ =>
        let (p, ms) := pms in
        s <- lift (join_str ms) ;;
        say ("  • " ++ p ++ ": " ++ s))
  end.

(** [update_models]. *)
Definition update_models (get : http) : M unit :=
  try_except (
    providers <- get_providers ;;
    match providers with
    | [] => say "[yellow]No providers found in config[/yellow]"
    | _ =>
        st <- for_each providers (mkStats [] [] []) (process_provider get) ;;
        report st
    end)
    (fun e => match e with
              | FileNotFoundError =>
                  Some (say "[red]Error: Config file not found[/red]" ;; raise (SystemExit 1))
              | SystemExit _ => None
              | _ =>
                  Some (say "[red]Unexpected error during update[/red]" ;; raise (SystemExit 1))
              end).

(** The router types [show_config] lists, in its order. *)
Definition show_router_types : list string :=
  ["default"; "background"; "think"; "longContext"; "webSearch"].

(** [str(router_config.get(key, "[red]Not set[/red]"))]. *)
Definition show_value (router_config : dict) (key : string) : string :=
  match aget key router_config with
  | Some v => py_str v
  | None => "[red]Not set[/red]"
  end.

(** [show_config]: the table is printed once, as its title followed by one
    "type | value" line per row. *)
Definition show_config : M unit :=
  catch_file_not_found (
    router_config <- get_router_config ;;
    match router_config with
    | [] => say "[yellow]No router configuration found[/yellow]"
    | _ =>
        let rows := app (map (fun rt => rt ++ " | " ++ show_value router_config rt)
                             show_router_types)
                        ["longContextThreshold | " ++ show_value router_config "longContextThreshold"] in
        say (fold_left (fun acc row => acc ++ nl ++ row) rows "Current Router Configuration")
    end).

End Cli.

(* ------------------------------------------------------------------ *)
(** ** Derived notions used in the statements *)

(** The error [add_provider] raises on a name or base-URL collision. *)
Definition duplicate_provider_error (p : provider) (e : exn) : Prop :=
  e = ValueError ("Provider with name '" ++ name p ++ "' already exists")
  \/ e = ValueError ("Provider with base URL '" ++ api_base_url p ++ "' already exists").

(** "longContext is set": [router_config.get("longContext")] is truthy,
    the test of [set_long_context_threshold]. *)
Definition long_context_set (c : config) : bool :=
  match aget "longContext" (router_of c) with
  | Some v => py_truthy v
  | None => false
  end.

(** A network on which every GET answers 404. *)
Definition all_404 : http := fun _ _ => Response 404 JNull.

(** A network on which every GET answers 200 with [body]. *)
Definition all_200 (body : json) : http := fun _ _ => Response 200 body.

(** The first provider named [pn]: the one [add_model_to_provider] updates. *)
Fixpoint find_provider (pn : string) (ps : list provider) : option provider :=
  match ps with
  | [] => None
  | p :: ps' => if String.eqb (name p) pn then Some p else find_provider pn ps'
  end.

(** The number of entries of [l] equal to the model name [m]. *)
Definition count_model (m : string) (l : list json) : nat :=
  length (filter (py_eq (JStr m)) l).

Definition empty_store (c : config) : store := mkStore (Some c) 0 [].

Definition c6_existing : provider := mkProvider "p1" "http://a" None (Some [JStr "m1"]) [].

Definition c6_doc : config := mkConfig (Some []) (Some [c6_existing]) [].

Definition c9_doc : config :=
  mkConfig (Some [("default", JStr "p1,m1"); ("longContext", JStr "p1,m1")])
           (Some [mkProvider "p1" "http://a" None (Some [JStr "m1"]) []]) [].

Definition c8_doc : config :=
  mkConfig (Some []) (Some [mkProvider "p1" "http://a" None (Some [JStr "m1"; JStr "m1"]) []]) [].

Definition c8_p1 : provider := mkProvider "p1" "http://a" None (Some [JStr "m1"]) [].

Definition c8_doc2 : config := mkConfig (Some []) (Some [c8_p1]) [].

(** The outcome of a mutation [m] started on the document [c] in store
    [s]: a failure leaves the store exactly as it was; a success has
    written exactly once a document that keeps the Router section and the
    other top-level keys of [c]. *)
Definition fails_or_writes_once {A} (m : M A) (c : config) (s : store) : Prop :=
  match m s with
  | (Err _, s') => s' = s
  | (Ok _, s') =>
      writes s' = S (writes s) /\ console s' = console s
      /\ exists c', file s' = Some c' /\ Router c' = Router c /\ rest c' = rest c
  end.

(** The [longContextThreshold] entry of the stored router section. *)
Definition threshold_of (s : store) : option json :=
  match file s with
  | Some c => aget "longContextThreshold" (router_of c)
  | None => None
  end.

(** [m] never changes the stored [longContextThreshold]. *)
Definition thr_stable {A} (m : M A) : Prop :=
  forall s, threshold_of (snd (m s)) = threshold_of s.

Definition c2_doc : config :=
  mkConfig (Some [("default", JStr "p1,m1"); ("longContext", JStr "p1,m1");
                  ("longContextThreshold", JInt 1000)])
           (Some [mkProvider "p1" "http://a" None (Some [JStr "m1"; JStr "m2"]) []]) [].

(** The longContext assignment as a string: [""] when absent (the default
    of [router_config.get("longContext", "")]), [None] when it is not a
    string. *)
Definition long_context_string (c : config) : option string :=
  match aget "longContext" (router_of c) with
  | None => Some ""
  | Some (JStr s) => Some s
  | Some _ => None
  end.

(** The test [cli.delete_model] applies to a string assignment [lc]: a
    non-empty [lc] ending with "," followed by the model name, or equal to
    it. *)
Definition references_model (lc m : string) : bool :=
  negb (String.eqb lc "") && (endswith lc ("," ++ m) || String.eqb lc m).

Definition c4_doc : config :=
  mkConfig (Some [("default", JStr "p1,a,b"); ("longContext", JStr "p1,a,b");
                  ("longContextThreshold", JInt 1000)])
           (Some [mkProvider "p1" "http://a" None (Some [JStr "a,b"]) []]) [].

(** Two documents the program cannot tell apart: the same router section,
    provider list and other keys once the [get(..., default)] defaults are
    applied. *)
Definition cfg_equiv (c1 c2 : config) : Prop :=
  router_of c1 = router_of c2 /\ providers_of c1 = providers_of c2 /\ rest c1 = rest c2.

Definition st_equiv (s1 s2 : store) : Prop :=
  writes s1 = writes s2 /\ console s1 = console s2 /\
  match file s1, file s2 with
  | None, None => True
  | Some c1, Some c2 => cfg_equiv c1 c2
  | _, _ => False
  end.

(** [m1] and [m2] give the same outcome on equivalent stores, and leave
    equivalent stores. *)
Definition resp2 {A} (m1 m2 : M A) : Prop :=
  forall s1 s2, st_equiv s1 s2 ->
  fst (m1 s1) = fst (m2 s2) /\ st_equiv (snd (m1 s1)) (snd (m2 s2)).

(** [m] cannot tell equivalent stores apart. *)
Definition respects {A} (m : M A) : Prop := resp2 m m.

(** [c] with both sections present: the defaults made explicit. *)
Definition with_sections (c : config) : config :=
  mkConfig (Some (router_of c)) (Some (providers_of c)) (rest c).

(** Every command of the program, with its result. *)
Inductive operation : Type :=
| OpGetRouterConfig
| OpUpdateRouterConfig (r : dict)
| OpGetProviders
| OpAddProviderRecord (p : provider)
| OpAddModelToProvider (provider_name : string) (model_name : json)
| OpGetAllModels
| OpFindProvidersForModel (model_name : string)
| OpValidateProviderModel (provider_name model_name : string)
| OpDeleteProviderRecord (provider_name : string)
| OpDeleteModelEverywhere (model_name : json)
| OpListModels
| OpChangeRouter (router_type model_value : string) (no_restart : bool) (ccr : ccr_result)
| OpAddProvider (get : http) (name0 base_url : string) (api_key0 : option string)
| OpAddModel (provider model_name : string)
| OpDeleteProvider (provider_name : string) (auto_confirm : bool) (answer : string)
| OpDeleteModel (model_name : string) (auto_confirm : bool) (answer : string)
| OpDeleteRouter (router_type : string) (auto_confirm : bool) (answer : string)
| OpSetLongContextThreshold (threshold : Z)
| OpUpdateModels (get : http).

Inductive answer : Type :=
| ANone
| ARouter (r : dict)
| AProviders (ps : list provider)
| AModels (d : list (string * list json))
| ANames (l : list string)
| ABool (b : bool).

Definition run_op (op : operation) : M answer :=
  match op with
  | OpGetRouterConfig => r <- ConfigManager.get_router_config ;; ret (ARouter r)
  | OpUpdateRouterConfig r => ConfigManager.update_router_config r ;; ret ANone
  | OpGetProviders => ps <- ConfigManager.get_providers ;; ret (AProviders ps)
  | OpAddProviderRecord p => ConfigManager.add_provider p ;; ret ANone
  | OpAddModelToProvider pn m => ConfigManager.add_model_to_provider pn m ;; ret ANone
  | OpGetAllModels => d <- ConfigManager.get_all_models ;; ret (AModels d)
  | OpFindProvidersForModel m => l <- ConfigManager.find_providers_for_model m ;; ret (ANames l)
  | OpValidateProviderModel pn m =>
      b <- ConfigManager.validate_provider_model pn m ;; ret (ABool b)
  | OpDeleteProviderRecord pn => ConfigManager.delete_provider pn ;; ret ANone
  | OpDeleteModelEverywhere m => ConfigManager.delete_model m ;; ret ANone
  | OpListModels => Cli.list_models ;; ret ANone
  | OpChangeRouter rt mv nr ccr => Cli.change_router rt mv nr ccr ;; ret ANone
  | OpAddProvider get n u k => Cli.add_provider get n u k ;; ret ANone
  | OpAddModel pn m => Cli.add_model pn m ;; ret ANone
  | OpDeleteProvider pn a ans => Cli.delete_provider pn a ans ;; ret ANone
  | OpDeleteModel m a ans => Cli.delete_model m a ans ;; ret ANone
  | OpDeleteRouter rt a ans => Cli.delete_router rt a ans ;; ret ANone
  | OpSetLongContextThreshold t => Cli.set_long_context_threshold t ;; ret ANone
  | OpUpdateModels get => Cli.update_models get ;; ret ANone
  end.

Definition c10_doc : config := mkConfig None None [].

(** From [c] to [c']: the router section is unchanged, and every provider
    (position by position) that listed the model [m] still lists it. *)
Definition keeps_model (m : string) (c c' : config) : Prop :=
  router_of c' = router_of c /\
  Forall2 (fun p p' => py_in (JStr m) (models_of p) = true -> py_in (JStr m) (models_of p') = true)
    (providers_of c) (providers_of c').

(** [mm], run on a document whose router references [m], ends on a
    document that keeps [m], whatever its outcome. *)
Definition keeps {A} (m : string) (mm : M A) : Prop :=
  forall s c, file s = Some c -> Cli.in_used (JStr m) (Cli.used_models (router_of c)) = true ->
  exists c', file (snd (mm s)) = Some c' /\ keeps_model m c c'.

Definition entries : Type := list (string * json).

(** A document whose router assigns "m1" without a provider prefix. *)
Definition c1_doc : config :=
  mkConfig (Some [("default", JStr "m1")])
           (Some [mkProvider "p1" "http://a" None (Some [JStr "m1"; JStr "m2"]) []]) [].

(** The same provider, with longContext assigned to "p1,m1". *)
Definition c1_doc2 : config :=
  mkConfig (Some [("default", JStr "p1,m2"); ("longContext", JStr "p1,m1")])
           (Some [mkProvider "p1" "http://a" None (Some [JStr "m1"; JStr "m2"]) []]) [].

(** The last provider named [n]: the one whose models [get_all_models]
    keeps, since a later dict entry overwrites an earlier one. *)
Definition last_provider (n : string) (ps : list provider) : option provider :=
  find_provider n (rev ps).

(** [m] leaves the config file untouched and saves nothing. *)
Definition ro {A} (m : M A) : Prop :=
  forall s, file (snd (m s)) = file s /\ writes (snd (m s)) = writes s.

Definition all_models_of (ps : list provider) : list (string * list json) :=
  fold_left (fun d p => aset (name p) (models_of p) d) ps [].

(** Two providers share the name "p1"; "m1" is listed by the first "p1"
    and by "p2". *)
Definition dup_names_doc : config :=
  mkConfig (Some [("default", JStr "p2,m1")])
           (Some [mkProvider "p1" "http://a" None (Some [JStr "m1"]) [];
                  mkProvider "p2" "http://b" None (Some [JStr "m1"]) [];
                  mkProvider "p1" "http://c" None (Some [JStr "m2"]) []]) [].

(** The providers after [delete_model m]: one occurrence of [m] removed
    from each provider that lists it. *)
Definition without_one (m : json) (ps : list provider) : list provider :=
  map (fun p => if py_in m (models_of p) then set_models p (remove_first m (models_of p)) else p) ps.

(** [m] never ends normally. *)
Definition fails {A} (m : M A) : Prop := forall s a s', m s <> (Ok a, s').

(** The value computation of [change_router] (the [if "," in model_value]
    block), as it stands in [Cli.change_router]. *)
Definition change_router_value (model_value : string) : M string :=
  (if str_contains "," model_value then
     let (a, b) := split1 model_value in
     let provider_name := strip a in
     let model_name := strip b in
     ok <- ConfigManager.validate_provider_model provider_name model_name ;;
     if negb ok then
       say ("[red]Error: Model '" ++ model_name ++ "' not found in provider '"
            ++ provider_name ++ "'[/red]") ;;
       say (nl ++ "[yellow]Available models:[/yellow]") ;;
       Cli.list_models ;;
       raise (SystemExit 1)
     else ret (provider_name ++ "," ++ model_name)
   else
     let model_name := strip model_value in
     matching_providers <- ConfigManager.find_providers_for_model model_name ;;
     match matching_providers with
     | [] =>
         say ("[red]Error: Model '" ++ model_name ++ "' not found in any provider[/red]") ;;
         say (nl ++ "[yellow]Available models:[/yellow]") ;;
         Cli.list_models ;;
         raise (SystemExit 1)
     | [provider_name] => ret (provider_name ++ "," ++ model_name)
     | _ =>
         say ("[red]Error: Model '" ++ model_name ++ "' found in multiple providers: "
              ++ Cli.join_plain matching_providers ++ "[/red]") ;;
         say (nl ++ "[yellow]Please specify provider explicitly: <provider>,"
              ++ model_name ++ "[/yellow]") ;;
         say (nl ++ "[yellow]Available models:[/yellow]") ;;
         Cli.list_models ;;
         raise (SystemExit 1)
     end).

(** The rest of [change_router] once [final_value] is known. *)
Definition change_router_tail (router_type : string) (no_restart : bool) (ccr : ccr_result)
    (final_value : string) : M unit :=
  router_config <- ConfigManager.get_router_config ;;
  ConfigManager.update_router_config (aset router_type (JStr final_value) router_config) ;;
  say ("[green]Updated " ++ router_type ++ " to: " ++ final_value ++ "[/green]") ;;
  (if negb no_restart then
     match ccr with
     | CcrStopped =>
         say "[blue]Issued ccr stop command[/blue]" ;;
         say "[blue]ccr service was stopped so new model can activate[/blue]"
     | CcrCalledProcessError =>
         say "[yellow]Warning: Failed to issue ccr stop command[/yellow]"
     | CcrNotFound =>
         say "[yellow]Warning: ccr command not found. Please ensure it is installed.[/yellow]"
     end
   else say "[blue]Configuration updated without restarting CCR service[/blue]") ;;
  (if String.eqb router_type "longContext" then
     say (nl ++ "[yellow]Tip: Set longContextThreshold next to enable:[/yellow]") ;;
     say "[yellow]  ccs set longContextThreshold <integer>[/yellow]"
   else ret tt).

(** A document where two providers list the model ["m1"]. *)
Definition shared_model_doc : config :=
  mkConfig (Some [])
           (Some [mkProvider "p1" "http://a" None (Some [JStr "m1"]) [];
                  mkProvider "p2" "http://b" None (Some [JStr "m1"; JStr "m2"]) []]) [].

(** A document whose router has a long-context entry and its threshold. *)
Definition lc_doc : config :=
  mkConfig (Some [("default", JStr "p1,m1"); ("longContext", JStr "p1,m2");
                  ("longContextThreshold", JInt 60000)])
           (Some [mkProvider "p1" "http://a" None (Some [JStr "m1"; JStr "m2"]) []]) [].

Definition network_down : http := fun _ _ => RequestException "Connection refused".

(** What [update_models] may not change in a provider: everything but its
    model list. *)
Definition provider_shape (p : provider) : string * string * option string * dict :=
  (name p, api_base_url p, api_key p, extra p).

(** [c'] differs from [c] at most in the model lists of its providers. *)
Definition same_shape (c c' : config) : Prop :=
  Router c' = Router c /\ rest c' = rest c /\
  map provider_shape (providers_of c') = map provider_shape (providers_of c).

(** [mm], run on an existing document, ends on a document of the same
    shape, whatever its outcome. *)
Definition keeps_shape {A} (mm : M A) : Prop :=
  forall s c, file s = Some c -> exists c', file (snd (mm s)) = Some c' /\ same_shape c c'.

(** Every endpoint lists the single model ["m3"]. *)
Definition serve_m3 : http := fun _ _ => Response 200 (JList [JStr "m3"]).

(** Exceptions other than [SystemExit]. *)
Definition not_exit (e : exn) : Prop :=
  match e with SystemExit _ => False | _ => True end.

(** [r] fails, if at all, with an exception other than [SystemExit]. *)
Definition ne_exit {A} (r : res A) : Prop := forall e, r = Err e -> not_exit e.

(** Every exception [m] ends with satisfies [P]. *)
Definition err_in {A} (P : exn -> Prop) (m : M A) : Prop :=
  forall s e s', m s = (Err e, s') -> P e.

(** A document with a provider whose model list holds an object. *)
Definition unhashable_doc : config :=
  mkConfig (Some [])
           (Some [mkProvider "p1" "http://a" None (Some [JDict []]) []]) [].

(** The models of provider [p] among the entries [xs], in order. *)
Definition models_for (p : string) (xs : list (string * json)) : list json :=
  map snd (filter (fun pm => String.eqb (fst pm) p) xs).

(* ------------------------------------------------------------------ *)
(** ** Monad lemmas *)

Lemma bind_ok {A B} (m : M A) (k : A -> M B) s a s' :
  m s = (Ok a, s') -> bind m k s = k a s'.
Proof. intros H. unfold bind. now rewrite H. Qed.

Lemma bind_err {A B} (m : M A) (k : A -> M B) s e s' :
  m s = (Err e, s') -> bind m k s = (Err e, s').
Proof. intros H. unfold bind. now rewrite H. Qed.

Lemma load_config_some s c :
  file s = Some c -> ConfigManager.load_config s = (Ok c, s).
Proof. intros H. unfold ConfigManager.load_config. now rewrite H. Qed.

Lemma aget_aset_same {V} k (v : V) d : aget k (aset k v d) = Some v.
Proof.
  induction d as [|[k' v'] d IH]; simpl.
  - now rewrite String.eqb_refl.
  - destruct (String.eqb k k') eqn:E; simpl.
    + apply String.eqb_eq in E; subst. now rewrite String.eqb_refl.
    + now rewrite E.
Qed.

Lemma aget_aset_other {V} k k2 (v : V) d :
  k2 <> k -> aget k2 (aset k v d) = aget k2 d.
Proof.
  intros Hne. induction d as [|[k' v'] d IH]; simpl.
  - apply String.eqb_neq in Hne. now rewrite Hne.
  - destruct (String.eqb k k') eqn:E; simpl.
    + apply String.eqb_eq in E; subst.
      apply String.eqb_neq in Hne. now rewrite Hne.
    + now rewrite IH.
Qed.

(* ------------------------------------------------------------------ *)
(** ** C3: probing a URL that already ends with /v1 *)

(** C3 (code_bug witness).  When both probes of
    [validate_provider_endpoint] answer 404, the URL "http://x.com/v1" is
    not returned unchanged: the second probe's 4xx branch also catches 404
    and strips "/v1". *)
Lemma validate_endpoint_v1_both_404 :
  ConfigManager.validate_provider_endpoint all_404 "http://x.com/v1" = "http://x.com".
Proof. reflexivity. Qed.

(* ------------------------------------------------------------------ *)
(** ** C7: the shape of a 200 body *)

(** C7 (code_bug witness).  A 200 response whose body is the bare JSON
    array ["data"] makes [fetch_models_from_endpoint] raise [TypeError]
    (the membership test ["data" in data] succeeds on the list and
    [data["data"]] indexes a list with a string) instead of returning the
    array. *)
Lemma fetch_bare_array_with_data_raises :
  fst (Cli.fetch_models_from_endpoint (all_200 (JList [JStr "data"])) "http://x.com" None
         (mkStore None 0 [])) = Err TypeError.
Proof. reflexivity. Qed.

(* ------------------------------------------------------------------ *)
(** ** C6: duplicate providers *)

Lemma check_duplicate_loop_clash (p : provider) ps s :
  (exists q, In q ps /\ (name q = name p \/ api_base_url q = api_base_url p)) ->
  exists e, ConfigManager.check_duplicate_loop p ps s = (Err e, s)
            /\ duplicate_provider_error p e.
Proof.
  induction ps as [|q ps IH]; intros [q0 [Hin Hclash]].
  - destruct Hin.
  - simpl. destruct (String.eqb (name q) (name p)) eqn:En.
    + eexists; split; [reflexivity | now left].
    + destruct (String.eqb (api_base_url q) (api_base_url p)) eqn:Eu.
      * eexists; split; [reflexivity | now right].
      * apply IH. destruct Hin as [<- | Hin].
        -- apply String.eqb_neq in En. apply String.eqb_neq in Eu.
           destruct Hclash; contradiction.
        -- now exists q0.
Qed.

Lemma check_duplicate_loop_fresh (p : provider) ps s :
  (forall q, In q ps -> name q <> name p /\ api_base_url q <> api_base_url p) ->
  ConfigManager.check_duplicate_loop p ps s = (Ok tt, s).
Proof.
  induction ps as [|q ps IH]; intros Hf; simpl; [reflexivity|].
  destruct (Hf q (or_introl eq_refl)) as [Hn Hu].
  apply String.eqb_neq in Hn. apply String.eqb_neq in Hu.
  rewrite Hn, Hu. apply IH. intros q' Hq'. apply Hf. now right.
Qed.

(** C6.  [add_provider] rejects a record whose name or base URL (either
    one) equals that of an existing provider, with the duplicate-provider
    [ValueError] and without touching the store; otherwise it appends the
    record after the existing ones, whose order is unchanged. *)
Theorem add_provider_rejects_duplicates_appends_otherwise
    (c : config) (s : store) (p : provider) :
  file s = Some c ->
  ((exists q, In q (providers_of c) /\ (name q = name p \/ api_base_url q = api_base_url p)) ->
   exists e, ConfigManager.add_provider p s = (Err e, s) /\ duplicate_provider_error p e)
  /\
  ((forall q, In q (providers_of c) -> name q <> name p /\ api_base_url q <> api_base_url p) ->
   ConfigManager.add_provider p s
   = (Ok tt, mkStore (Some (set_Providers c (app (providers_of c) [p]))) (S (writes s))
                     (console s))).
Proof.
  intros Hf. destruct s as [f w cs]. simpl in Hf. subst f.
  unfold ConfigManager.add_provider, ConfigManager._check_duplicate_provider,
    ConfigManager.get_providers, ConfigManager.load_config, bind, ret. simpl.
  split.
  - intros Hclash.
    destruct (check_duplicate_loop_clash p (providers_of c) (mkStore (Some c) w cs) Hclash)
      as [e [He Hd]].
    exists e. rewrite He. now split.
  - intros Hfresh.
    now rewrite (check_duplicate_loop_fresh p (providers_of c) _ Hfresh).
Qed.

Lemma add_provider_rejects_duplicates_appends_otherwise_witness :
  file (empty_store c6_doc) = Some c6_doc /\
  exists e,
    ConfigManager.add_provider (mkProvider "p2" "http://a" None None []) (empty_store c6_doc)
    = (Err e, empty_store c6_doc)
    /\ duplicate_provider_error (mkProvider "p2" "http://a" None None []) e.
Proof.
  split; [reflexivity|].
  apply (proj1 (add_provider_rejects_duplicates_appends_otherwise
                  c6_doc (empty_store c6_doc) (mkProvider "p2" "http://a" None None [])
                  eq_refl)).
  exists c6_existing. split; [now left | now right].
Defined.

(* ------------------------------------------------------------------ *)
(** ** C9: setting longContextThreshold *)

(** C9.  [set_long_context_threshold t] exits with status 1 and leaves the
    file (and the write count) unchanged when longContext is not set;
    when it is set, it succeeds and reading the router section back gives
    [longContextThreshold = t]. *)
Theorem set_threshold_requires_long_context (c : config) (s : store) (t : Z) :
  file s = Some c ->
  (long_context_set c = false ->
   exists s', Cli.set_long_context_threshold t s = (Err (SystemExit 1), s')
              /\ file s' = file s /\ writes s' = writes s)
  /\
  (long_context_set c = true ->
   exists s' r', Cli.set_long_context_threshold t s = (Ok tt, s')
                 /\ fst (ConfigManager.get_router_config s') = Ok r'
                 /\ aget "longContextThreshold" r' = Some (JInt t)).
Proof.
  intros Hf. destruct s as [f w cs]. simpl in Hf. subst f.
  unfold long_context_set.
  unfold Cli.set_long_context_threshold, Cli.catch_file_not_found, try_except,
    ConfigManager.get_router_config, ConfigManager.update_router_config,
    ConfigManager.load_config, ConfigManager.save_config, bind, ret, say, raise.
  simpl. split.
  - intros Hn. rewrite Hn. simpl. eexists; repeat split.
  - intros Hy. rewrite Hy. simpl. eexists; eexists; split; [reflexivity|].
    simpl. split; [reflexivity|]. apply aget_aset_same.
Qed.

Lemma set_threshold_requires_long_context_witness :
  file (empty_store c9_doc) = Some c9_doc /\ long_context_set c9_doc = true /\
  exists s' r', Cli.set_long_context_threshold 1000 (empty_store c9_doc) = (Ok tt, s')
                /\ fst (ConfigManager.get_router_config s') = Ok r'
                /\ aget "longContextThreshold" r' = Some (JInt 1000).
Proof.
  split; [reflexivity|]. split; [reflexivity|].
  apply (proj2 (set_threshold_requires_long_context c9_doc (empty_store c9_doc) 1000 eq_refl)).
  reflexivity.
Defined.

(* ------------------------------------------------------------------ *)
(** ** C8: adding a model twice *)

Lemma py_eq_str_l m y : py_eq (JStr m) y = true <-> y = JStr m.
Proof.
  destruct y; simpl; split; intros H; try discriminate; try (inversion H; fail).
  - apply String.eqb_eq in H. now subst.
  - inversion H. apply String.eqb_refl.
Qed.

Lemma count_model_app m l x :
  count_model m (app l [x]) = (count_model m l + (if py_eq (JStr m) x then 1 else 0))%nat.
Proof.
  unfold count_model. rewrite filter_app, length_app. cbn [filter].
  destruct (py_eq (JStr m) x); reflexivity.
Qed.

Lemma count_model_zero m l : py_in (JStr m) l = false -> count_model m l = 0%nat.
Proof.
  intros H. unfold count_model, py_in in *.
  induction l as [|y l IH]; cbn [existsb filter length] in *; [reflexivity|].
  apply orb_false_iff in H as [H1 H2]. rewrite H1. now apply IH.
Qed.

Lemma count_model_pos m l : py_in (JStr m) l = true -> (1 <= count_model m l)%nat.
Proof.
  intros H. unfold count_model, py_in in *.
  induction l as [|y l IH]; cbn [existsb filter length] in *; [discriminate|].
  apply orb_true_iff in H as [H | H].
  - rewrite H. cbn [length]. lia.
  - destruct (py_eq (JStr m) y); cbn [length]; [lia | now apply IH].
Qed.

Lemma add_model_loop_none pn m ps :
  find_provider pn ps = None -> ConfigManager.add_model_loop pn m ps = None.
Proof.
  induction ps as [|p ps IH]; simpl; [reflexivity|].
  destruct (String.eqb (name p) pn); [discriminate|].
  intros H. now rewrite (IH H).
Qed.

Lemma add_model_loop_present pn m ps p :
  find_provider pn ps = Some p -> py_in m (models_of p) = true ->
  ConfigManager.add_model_loop pn m ps = Some None.
Proof.
  induction ps as [|q ps IH]; simpl; [discriminate|].
  destruct (String.eqb (name q) pn).
  - intros H Hin. inversion H; subst. now rewrite Hin.
  - intros H Hin. now rewrite (IH H Hin).
Qed.

Lemma add_model_loop_absent pn m ps p :
  find_provider pn ps = Some p -> py_in m (models_of p) = false ->
  exists ps', ConfigManager.add_model_loop pn m ps = Some (Some ps')
              /\ find_provider pn ps' = Some (set_models p (app (models_of p) [m])).
Proof.
  induction ps as [|q ps IH]; simpl; [discriminate|].
  destruct (String.eqb (name q) pn) eqn:E.
  - intros H Hin. inversion H; subst. rewrite Hin. simpl.
    eexists; split; [reflexivity|]. simpl. unfold set_models at 1. simpl. now rewrite E.
  - intros H Hin. destruct (IH H Hin) as [ps' [H1 H2]]. rewrite H1.
    eexists; split; [reflexivity|]. simpl. now rewrite E.
Qed.

Lemma py_in_app_last_str m l : py_in (JStr m) (app l [JStr m]) = true.
Proof.
  unfold py_in. rewrite existsb_app. apply orb_true_iff. right.
  simpl. now rewrite String.eqb_refl.
Qed.

(** C8 (amended).  [add_model_to_provider pn m] raises "Provider 'pn' not
    found" when no provider is named [pn].  Otherwise, for the first
    provider named [pn], the first call succeeds, the second call succeeds
    and changes nothing (the store is identical), and the number of
    occurrences of [m] in that provider's models becomes
    [max 1 (previous count)]: exactly one when the list held it at most
    once before. *)
Theorem add_model_to_provider_idempotent (c : config) (s : store) (pn m : string) :
  file s = Some c ->
  (find_provider pn (providers_of c) = None ->
   ConfigManager.add_model_to_provider pn (JStr m) s
   = (Err (ValueError ("Provider '" ++ pn ++ "' not found")), s))
  /\
  (forall p, find_provider pn (providers_of c) = Some p ->
   exists s1 c1 p1,
     ConfigManager.add_model_to_provider pn (JStr m) s = (Ok tt, s1)
     /\ ConfigManager.add_model_to_provider pn (JStr m) s1 = (Ok tt, s1)
     /\ file s1 = Some c1
     /\ find_provider pn (providers_of c1) = Some p1
     /\ count_model m (models_of p1) = Nat.max 1 (count_model m (models_of p))).
Proof.
  intros Hf. destruct s as [f w cs]. simpl in Hf. subst f.
  unfold ConfigManager.add_model_to_provider, ConfigManager.load_config,
    ConfigManager.save_config, bind, ret, raise.
  simpl. split.
  - intros Hn. now rewrite (add_model_loop_none pn (JStr m) _ Hn).
  - intros p Hp.
    destruct (py_in (JStr m) (models_of p)) eqn:Hin.
    + rewrite (add_model_loop_present pn (JStr m) _ p Hp Hin).
      exists (mkStore (Some c) w cs), c, p. simpl.
      rewrite (add_model_loop_present pn (JStr m) _ p Hp Hin).
      repeat split; try reflexivity; [exact Hp|].
      pose proof (count_model_pos m _ Hin).
      destruct (count_model m (models_of p)); [lia | reflexivity].
    + destruct (add_model_loop_absent pn (JStr m) _ p Hp Hin) as [ps' [H1 H2]].
      rewrite H1.
      exists (mkStore (Some (set_Providers c ps')) (S w) cs), (set_Providers c ps'),
             (set_models p (app (models_of p) [JStr m])).
      assert (Hin2 : py_in (JStr m) (models_of (set_models p (app (models_of p) [JStr m])))
                     = true).
      { simpl. unfold models_of at 1. simpl.
        apply py_in_app_last_str. }
      simpl. unfold providers_of at 1. simpl.
      rewrite (add_model_loop_present pn (JStr m) ps' _ H2 Hin2).
      repeat split; try reflexivity; [exact H2|].
      unfold models_of at 1. simpl. rewrite count_model_app.
      rewrite (count_model_zero m _ Hin). simpl. now rewrite String.eqb_refl.
Qed.

(** C8 (counterexample to the claim as stated).  On a document whose
    provider "p1" already lists "m1" twice, adding "m1" twice leaves two
    occurrences, not exactly one. *)
Lemma add_model_twice_keeps_existing_duplicates :
  let s1 := snd (ConfigManager.add_model_to_provider "p1" (JStr "m1") (empty_store c8_doc)) in
  let s2 := snd (ConfigManager.add_model_to_provider "p1" (JStr "m1") s1) in
  match file s2 with
  | Some c => match find_provider "p1" (providers_of c) with
              | Some p => count_model "m1" (models_of p) = 2%nat
              | None => False
              end
  | None => False
  end.
Proof. vm_compute. reflexivity. Qed.

Lemma add_model_to_provider_idempotent_witness :
  file (empty_store c8_doc2) = Some c8_doc2 /\
  exists s1 c1 p1,
    ConfigManager.add_model_to_provider "p1" (JStr "m2") (empty_store c8_doc2) = (Ok tt, s1)
    /\ ConfigManager.add_model_to_provider "p1" (JStr "m2") s1 = (Ok tt, s1)
    /\ file s1 = Some c1
    /\ find_provider "p1" (providers_of c1) = Some p1
    /\ count_model "m2" (models_of p1) = Nat.max 1 (count_model "m2" (models_of c8_p1)).
Proof.
  split; [reflexivity|].
  exact (proj2 (add_model_to_provider_idempotent c8_doc2 (empty_store c8_doc2) "p1" "m2" eq_refl)
           c8_p1 eq_refl).
Defined.

(* ------------------------------------------------------------------ *)
(** ** C5: every ConfigManager mutation fails before writing *)

Lemma check_duplicate_loop_store (p : provider) ps s :
  exists r, ConfigManager.check_duplicate_loop p ps s = (r, s).
Proof.
  induction ps as [|q ps IH]; simpl; [now exists (Ok tt)|].
  destruct (String.eqb (name q) (name p)); [eexists; reflexivity|].
  destruct (String.eqb (api_base_url q) (api_base_url p)); [eexists; reflexivity|exact IH].
Qed.




(* ------------------------------------------------------------------ *)
(** ** C2: longContextThreshold when longContext is un-set or overwritten *)

Lemma ret_stable {A} (a : A) : thr_stable (ret a).
Proof. intros s. reflexivity. Qed.

Lemma raise_stable {A} e : thr_stable (@raise A e).
Proof. intros s. reflexivity. Qed.

Lemma lift_stable {A} (r : res A) : thr_stable (lift r).
Proof. intros s. reflexivity. Qed.

Lemma say_stable msg : thr_stable (say msg).
Proof. intros s. reflexivity. Qed.

Lemma bind_stable {A B} (m : M A) (k : A -> M B) :
  thr_stable m -> (forall a, thr_stable (k a)) -> thr_stable (bind m k).
Proof.
  intros Hm Hk s. unfold bind. specialize (Hm s).
  destruct (m s) as [[a|e] s'] eqn:E; simpl in *; [now rewrite Hk|exact Hm].
Qed.

Lemma try_except_stable {A} (m : M A) h :
  thr_stable m -> (forall e k, h e = Some k -> thr_stable k) -> thr_stable (try_except m h).
Proof.
  intros Hm Hh s. unfold try_except. specialize (Hm s).
  destruct (m s) as [[a|e] s'] eqn:E; simpl in *; [exact Hm|].
  destruct (h e) as [k|] eqn:Eh; simpl; [|exact Hm].
  rewrite (Hh e k Eh). exact Hm.
Qed.

Lemma for_each_stable {A B} (xs : list A) (acc : B) body :
  (forall x b, thr_stable (body x b)) -> thr_stable (for_each xs acc body).
Proof.
  intros Hb. revert acc. induction xs as [|x xs IH]; intros acc; simpl.
  - apply ret_stable.
  - apply bind_stable; [apply Hb | intros; apply IH].
Qed.

Lemma load_config_stable : thr_stable ConfigManager.load_config.
Proof. intros [f w cs]. unfold ConfigManager.load_config. now destruct f. Qed.

Create HintDb stable.
#[local] Hint Resolve ret_stable raise_stable lift_stable say_stable load_config_stable
  for_each_stable : stable.

(** Decompose a program into its steps and discharge the reading steps. *)
Ltac stable_steps :=
  repeat (first
    [ apply bind_stable; [| intros ?]
    | apply ret_stable | apply raise_stable | apply lift_stable | apply say_stable
    | apply load_config_stable
    | apply for_each_stable; intros ? ?
    | match goal with
      | |- thr_stable (match ?x with _ => _ end) => destruct x
      | |- thr_stable (let (_, _) := ?x in _) => destruct x
      end ]).

Lemma list_models_stable : thr_stable Cli.list_models.
Proof.
  unfold Cli.list_models, ConfigManager.get_all_models, ConfigManager.get_providers.
  stable_steps.
Qed.

Lemma get_then_set_other_stable (router_type : string) (v : json) :
  router_type <> "longContextThreshold" ->
  thr_stable (r <- ConfigManager.get_router_config ;;
              ConfigManager.update_router_config (aset router_type v r)).
Proof.
  intros Hne [f w cs].
  unfold ConfigManager.get_router_config, ConfigManager.update_router_config,
    ConfigManager.load_config, ConfigManager.save_config, bind, ret.
  destruct f as [c|]; simpl; [|reflexivity].
  unfold threshold_of. simpl. unfold router_of at 1. simpl.
  apply aget_aset_other. intros H. now subst.
Qed.

Lemma change_long_context_stable model_value no_restart ccr :
  thr_stable (Cli.change_router "longContext" model_value no_restart ccr).
Proof.
  assert (Hv : existsb (String.eqb "longContext") Cli.valid_types_change = true)
    by reflexivity.
  unfold Cli.change_router. rewrite Hv. cbn [negb].
  unfold Cli.catch_file_not_found.
  apply try_except_stable.
  - unfold ConfigManager.validate_provider_model, ConfigManager.find_providers_for_model,
      ConfigManager.get_all_models, ConfigManager.get_providers.
    apply bind_stable.
    + destruct (str_contains "," model_value); stable_steps;
        try apply list_models_stable.
    + intros final_value.
      intros s. unfold bind at 1.
      pose proof (get_then_set_other_stable "longContext" (JStr final_value)) as H.
      assert (Hne : "longContext" <> "longContextThreshold") by discriminate.
      specialize (H Hne s). unfold bind at 1 in H.
      destruct (ConfigManager.get_router_config s) as [[r|e] s1] eqn:E1; simpl in *;
        [|exact H].
      unfold bind at 1.
      destruct (ConfigManager.update_router_config _ s1) as [[[]|e] s2] eqn:E2;
        simpl in *; [|exact H].
      rewrite <- H. clear E1 E2 H. revert s2.
      match goal with
      | |- forall s2, threshold_of (snd (?P s2)) = threshold_of s2 => change (thr_stable P)
      end.
      stable_steps; destruct ccr; stable_steps.
  - intros e k Hk. destruct e; inversion Hk; subst. stable_steps.
Qed.

Lemma aget_apop_other {V} k k2 (d : list (string * V)) :
  k2 <> k -> aget k2 (apop k d) = aget k2 d.
Proof.
  intros Hne. induction d as [|[k' v'] d IH]; simpl; [reflexivity|].
  destruct (String.eqb k k') eqn:E; simpl.
  - apply String.eqb_eq in E; subst. apply String.eqb_neq in Hne. now rewrite Hne.
  - now rewrite IH.
Qed.

Lemma aget_not_in {V} k (d : list (string * V)) : ~ In k (map fst d) -> aget k d = None.
Proof.
  induction d as [|[k' v'] d IH]; simpl; intros Hn; [reflexivity|].
  destruct (String.eqb k k') eqn:E.
  - apply String.eqb_eq in E; subst. exfalso. now apply Hn; left.
  - apply IH. intros Hin. now apply Hn; right.
Qed.

Lemma aget_apop_same {V} k (d : list (string * V)) :
  NoDup (map fst d) -> aget k (apop k d) = None.
Proof.
  induction d as [|[k' v'] d IH]; simpl; intros Hnd; [reflexivity|].
  inversion Hnd as [|? ? Hnotin Hnd']; subst.
  destruct (String.eqb k k') eqn:E.
  - apply String.eqb_eq in E; subst. now apply aget_not_in.
  - simpl. rewrite E. now apply IH.
Qed.

(** C2 (amended).  On a document whose router section has distinct keys:
    un-setting longContext ([delete_router "longContext"], confirmed, with
    longContext present) succeeds and removes [longContextThreshold];
    un-setting any other router type never changes [longContextThreshold];
    overwriting longContext ([change_router "longContext" ...]) never
    changes [longContextThreshold], whatever the outcome. *)
Theorem long_context_unset_and_overwrite (c : config) (s : store) :
  file s = Some c -> NoDup (map fst (router_of c)) ->
  (forall auto_confirm answer,
     Cli.confirmed auto_confirm answer = true ->
     amem "longContext" (router_of c) = true ->
     exists s', Cli.delete_router "longContext" auto_confirm answer s = (Ok tt, s')
                /\ threshold_of s' = None)
  /\ (forall router_type auto_confirm answer,
        router_type <> "longContext" ->
        threshold_of (snd (Cli.delete_router router_type auto_confirm answer s))
        = threshold_of s)
  /\ (forall model_value no_restart ccr,
        threshold_of (snd (Cli.change_router "longContext" model_value no_restart ccr s))
        = threshold_of s).
Proof.
  intros Hf Hnd. destruct s as [f w cs]. simpl in Hf. subst f.
  split; [|split].
  - intros auto_confirm answer Hc Hlc.
    unfold Cli.delete_router. cbn [existsb Cli.valid_types_delete String.eqb negb orb].
    rewrite Hc. cbn [negb].
    unfold Cli.catch_file_not_found, try_except, ConfigManager.get_router_config,
      ConfigManager.update_router_config, ConfigManager.load_config,
      ConfigManager.save_config, bind, ret, say. simpl.
    rewrite Hlc. simpl.
    destruct (amem "longContextThreshold" (router_of c)) eqn:Ht; simpl;
      eexists; split; try reflexivity; unfold threshold_of; simpl;
      unfold router_of at 1; simpl.
    + rewrite aget_apop_other by discriminate. now apply aget_apop_same.
    + rewrite aget_apop_other by discriminate.
      destruct (aget "longContextThreshold" (router_of c)) eqn:E; [|reflexivity].
      unfold amem in Ht. rewrite E in Ht. discriminate.
  - intros router_type auto_confirm answer Hne.
    unfold Cli.delete_router.
    destruct (existsb (String.eqb router_type) Cli.valid_types_delete) eqn:Ev;
      [|reflexivity].
    assert (Hnt : router_type <> "longContextThreshold").
    { intros ->. discriminate Ev. }
    cbn [negb]. destruct (Cli.confirmed auto_confirm answer); [|reflexivity]. cbn [negb].
    unfold Cli.catch_file_not_found, try_except, ConfigManager.get_router_config,
      ConfigManager.update_router_config, ConfigManager.load_config,
      ConfigManager.save_config, bind, ret, say. simpl.
    apply String.eqb_neq in Hne. rewrite Hne. simpl.
    destruct (amem router_type (router_of c)); simpl; [|reflexivity].
    unfold threshold_of. simpl. unfold router_of at 1. simpl.
    apply aget_apop_other. intros H. now apply Hnt.
  - intros model_value no_restart ccr. apply change_long_context_stable.
Qed.

Lemma long_context_unset_and_overwrite_witness :
  file (empty_store c2_doc) = Some c2_doc /\ NoDup (map fst (router_of c2_doc)) /\
  exists s', Cli.delete_router "longContext" true "" (empty_store c2_doc) = (Ok tt, s')
             /\ threshold_of s' = None.
Proof.
  assert (Hnd : NoDup (map fst (router_of c2_doc))).
  { simpl. repeat constructor; simpl; intuition discriminate. }
  split; [reflexivity|]. split; [exact Hnd|].
  apply (proj1 (long_context_unset_and_overwrite c2_doc (empty_store c2_doc) eq_refl Hnd));
    reflexivity.
Defined.

(** C2 (counterexample to the claim as stated).  Overwriting the
    longContext assignment "p1,m1" with "p1,m2" succeeds and keeps
    [longContextThreshold = 1000]. *)
Lemma overwrite_long_context_keeps_threshold :
  Cli.change_router "longContext" "p1,m2" true CcrStopped (empty_store c2_doc)
  = (Ok tt, snd (Cli.change_router "longContext" "p1,m2" true CcrStopped (empty_store c2_doc)))
  /\ threshold_of (snd (Cli.change_router "longContext" "p1,m2" true CcrStopped
                          (empty_store c2_doc)))
     = Some (JInt 1000).
Proof. split; vm_compute; reflexivity. Qed.

(* ------------------------------------------------------------------ *)
(** ** C4: deleting the longContext model *)




(* ------------------------------------------------------------------ *)
(** ** C10: a missing Router or Providers section reads as empty *)

Lemma st_equiv_refl s : st_equiv s s.
Proof.
  destruct s as [[c|] w cs]; repeat split.
Qed.

Lemma ret_respects {A} (a : A) : respects (ret a).
Proof. intros s1 s2 H. now split. Qed.

Lemma raise_respects {A} e : respects (@raise A e).
Proof. intros s1 s2 H. now split. Qed.

Lemma lift_respects {A} (r : res A) : respects (lift r).
Proof. intros s1 s2 H. now split. Qed.

Lemma say_respects msg : respects (say msg).
Proof.
  intros [f1 w1 c1] [f2 w2 c2] [Hw [Hc Hf]]. simpl in *. subst.
  split; [reflexivity|]. split; [reflexivity|split; [reflexivity|exact Hf]].
Qed.

Lemma bind_resp2 {A B} (m1 m2 : M A) (k1 k2 : A -> M B) :
  resp2 m1 m2 -> (forall a, resp2 (k1 a) (k2 a)) -> resp2 (bind m1 k1) (bind m2 k2).
Proof.
  intros Hm Hk s1 s2 H. unfold bind.
  destruct (Hm s1 s2 H) as [H1 H2].
  destruct (m1 s1) as [r1 s1'], (m2 s2) as [r2 s2']. simpl in *. subst r2.
  destruct r1 as [a|e]; [now apply Hk | now split].
Qed.

Lemma bind_respects {A B} (m : M A) (k : A -> M B) :
  respects m -> (forall a, respects (k a)) -> respects (bind m k).
Proof. intros; now apply bind_resp2. Qed.

Lemma try_except_respects {A} (m : M A) h :
  respects m -> (forall e k, h e = Some k -> respects k) -> respects (try_except m h).
Proof.
  intros Hm Hh s1 s2 H. unfold try_except.
  destruct (Hm s1 s2 H) as [H1 H2].
  destruct (m s1) as [r1 s1'], (m s2) as [r2 s2']. simpl in *. subst r2.
  destruct r1 as [a|e]; [now split|].
  destruct (h e) as [k|] eqn:Eh; [now apply (Hh e k Eh) | now split].
Qed.

Lemma for_each_respects {A B} (xs : list A) (acc : B) body :
  (forall x b, respects (body x b)) -> respects (for_each xs acc body).
Proof.
  intros Hb. revert acc. induction xs as [|x xs IH]; intros acc; simpl.
  - apply ret_respects.
  - apply bind_respects; [apply Hb | intros; apply IH].
Qed.

(** Reading the document and continuing with steps that see it only
    through its defaults. *)
Lemma load_then_respects {A} (k : config -> M A) :
  (forall c1 c2, cfg_equiv c1 c2 -> resp2 (k c1) (k c2)) ->
  respects (bind ConfigManager.load_config k).
Proof.
  intros Hk [f1 w1 c1] [f2 w2 c2] H. unfold bind, ConfigManager.load_config.
  destruct H as [Hw [Hc Hf]]. simpl in *.
  destruct f1 as [d1|], f2 as [d2|]; try contradiction; simpl.
  - apply Hk; [exact Hf|]. split; [exact Hw|split; [exact Hc|exact Hf]].
  - split; [reflexivity|]. repeat split; simpl; auto.
Qed.

Lemma save_resp2 c1 c2 : cfg_equiv c1 c2 ->
  resp2 (ConfigManager.save_config c1) (ConfigManager.save_config c2).
Proof.
  intros Hc [f1 w1 k1] [f2 w2 k2] [Hw [Hk _]]. simpl in *. subst.
  split; [reflexivity|]. split; [reflexivity|split; [reflexivity|exact Hc]].
Qed.

Lemma set_Providers_equiv c1 c2 ps :
  cfg_equiv c1 c2 -> cfg_equiv (set_Providers c1 ps) (set_Providers c2 ps).
Proof. intros [Hr [Hp Ht]]. repeat split; auto. Qed.

Lemma set_Router_equiv c1 c2 r :
  cfg_equiv c1 c2 -> cfg_equiv (set_Router c1 r) (set_Router c2 r).
Proof. intros [Hr [Hp Ht]]. repeat split; auto. Qed.

Lemma same_resp2 {A} (m : M A) : respects m -> resp2 m m.
Proof. auto. Qed.

(** The steps of a command after [load_config]: the two copies of the
    document are replaced by their common views, and a save of either
    copy is a save of equivalent documents. *)
Ltac load_steps :=
  apply load_then_respects; intros c1 c2 Hc;
  pose proof Hc as [Hr [Hp _]]; rewrite ?Hr, ?Hp;
  repeat match goal with
         | |- resp2 (ConfigManager.save_config _) (ConfigManager.save_config _) =>
             apply save_resp2; first [apply set_Providers_equiv | apply set_Router_equiv]; exact Hc
         | |- resp2 (bind _ _) (bind _ _) => apply bind_resp2; [|intro]
         | |- resp2 (ret ?a) (ret ?a) => apply same_resp2, ret_respects
         | |- resp2 (raise ?e) (raise ?e) => apply same_resp2, raise_respects
         | |- resp2 (match ?x with _ => _ end) (match ?x with _ => _ end) => destruct x
         end.

Lemma get_router_config_respects : respects ConfigManager.get_router_config.
Proof. unfold ConfigManager.get_router_config. load_steps. Qed.

Lemma update_router_config_respects r : respects (ConfigManager.update_router_config r).
Proof. unfold ConfigManager.update_router_config. load_steps. Qed.

Lemma get_providers_respects : respects ConfigManager.get_providers.
Proof. unfold ConfigManager.get_providers. load_steps. Qed.

Lemma check_duplicate_loop_respects p ps : respects (ConfigManager.check_duplicate_loop p ps).
Proof.
  induction ps as [|q ps IH]; simpl; [apply ret_respects|].
  destruct (String.eqb _ _); [apply raise_respects|].
  destruct (String.eqb _ _); [apply raise_respects|exact IH].
Qed.

Lemma add_provider_respects p : respects (ConfigManager.add_provider p).
Proof.
  unfold ConfigManager.add_provider, ConfigManager._check_duplicate_provider.
  apply bind_respects; [apply bind_respects; [apply get_providers_respects|]|].
  - intros; apply check_duplicate_loop_respects.
  - intros _. load_steps.
Qed.

Lemma add_model_to_provider_respects pn m : respects (ConfigManager.add_model_to_provider pn m).
Proof. unfold ConfigManager.add_model_to_provider. load_steps. Qed.

Lemma get_all_models_respects : respects ConfigManager.get_all_models.
Proof.
  unfold ConfigManager.get_all_models.
  apply bind_respects; [apply get_providers_respects|intros; apply ret_respects].
Qed.

Lemma find_providers_for_model_respects m : respects (ConfigManager.find_providers_for_model m).
Proof.
  unfold ConfigManager.find_providers_for_model.
  apply bind_respects; [apply get_all_models_respects|intros; apply ret_respects].
Qed.

Lemma validate_provider_model_respects pn m : respects (ConfigManager.validate_provider_model pn m).
Proof.
  unfold ConfigManager.validate_provider_model.
  apply bind_respects; [apply get_all_models_respects|intros; apply ret_respects].
Qed.

Lemma delete_provider_respects pn : respects (ConfigManager.delete_provider pn).
Proof. unfold ConfigManager.delete_provider. load_steps. Qed.

Lemma delete_model_respects m : respects (ConfigManager.delete_model m).
Proof. unfold ConfigManager.delete_model. load_steps. Qed.

Create HintDb resp.
#[local] Hint Resolve ret_respects raise_respects lift_respects say_respects
  get_router_config_respects update_router_config_respects get_providers_respects
  add_provider_respects add_model_to_provider_respects get_all_models_respects
  find_providers_for_model_respects validate_provider_model_respects
  delete_provider_respects delete_model_respects : resp.

Ltac resp_steps :=
  repeat match goal with
         | |- respects _ => solve [auto with resp]
         | |- respects (bind _ _) => apply bind_respects; [|intro]
         | |- respects (try_except _ _) =>
             apply try_except_respects;
             [|let e := fresh "e" in let k := fresh "k" in let Hk := fresh "Hk" in
               intros e k Hk; destruct e; simpl in Hk;
               try discriminate; injection Hk as <-]
         | |- respects (for_each _ _ _) => apply for_each_respects; intros; cbv beta
         | |- respects (match ?x with _ => _ end) => destruct x
         end.

Lemma list_models_respects : respects Cli.list_models.
Proof. unfold Cli.list_models. resp_steps. Qed.
#[local] Hint Resolve list_models_respects : resp.

Lemma change_router_respects rt mv nr ccr : respects (Cli.change_router rt mv nr ccr).
Proof. unfold Cli.change_router, Cli.catch_file_not_found. resp_steps. Qed.

Lemma cli_add_provider_respects get n u k : respects (Cli.add_provider get n u k).
Proof. unfold Cli.add_provider. resp_steps. Qed.

Lemma cli_add_model_respects pn m : respects (Cli.add_model pn m).
Proof. unfold Cli.add_model, Cli.catch_value_or_file. resp_steps. Qed.

Lemma cli_delete_provider_respects pn a ans : respects (Cli.delete_provider pn a ans).
Proof. unfold Cli.delete_provider, Cli.catch_value_or_file. resp_steps. Qed.

Lemma cli_delete_model_respects m a ans : respects (Cli.delete_model m a ans).
Proof. unfold Cli.delete_model. resp_steps. Qed.

Lemma delete_router_respects rt a ans : respects (Cli.delete_router rt a ans).
Proof. unfold Cli.delete_router, Cli.catch_file_not_found. resp_steps. Qed.

Lemma set_long_context_threshold_respects t : respects (Cli.set_long_context_threshold t).
Proof. unfold Cli.set_long_context_threshold, Cli.catch_file_not_found. resp_steps. Qed.

Lemma models_of_body_respects url data : respects (Cli.models_of_body url data).
Proof. unfold Cli.models_of_body. resp_steps. Qed.
#[local] Hint Resolve models_of_body_respects : resp.

Lemma fetch_loop_respects get h urls : respects (Cli.fetch_loop get h urls).
Proof.
  induction urls as [|u urls IH]; simpl; [auto with resp|].
  destruct (get u h); resp_steps.
Qed.
#[local] Hint Resolve fetch_loop_respects : resp.

Lemma fetch_models_from_endpoint_respects get u k :
  respects (Cli.fetch_models_from_endpoint get u k).
Proof. unfold Cli.fetch_models_from_endpoint. resp_steps. Qed.
#[local] Hint Resolve fetch_models_from_endpoint_respects : resp.

Lemma reconcile_provider_respects pn cur fetched st :
  respects (Cli.reconcile_provider pn cur fetched st).
Proof. unfold Cli.reconcile_provider. resp_steps. Qed.
#[local] Hint Resolve reconcile_provider_respects : resp.

Lemma process_provider_respects get p st : respects (Cli.process_provider get p st).
Proof. unfold Cli.process_provider. resp_steps. Qed.
#[local] Hint Resolve process_provider_respects : resp.

Lemma say_entries_respects xs : respects (Cli.say_entries xs).
Proof. induction xs as [|[p m] xs IH]; simpl; resp_steps. Qed.
#[local] Hint Resolve say_entries_respects : resp.

Lemma report_respects st : respects (Cli.report st).
Proof. unfold Cli.report. resp_steps. Qed.
#[local] Hint Resolve report_respects : resp.

Lemma update_models_respects get : respects (Cli.update_models get).
Proof. unfold Cli.update_models. resp_steps. Qed.

Lemma run_op_respects op : respects (run_op op).
Proof.
  destruct op; simpl; apply bind_respects; intros; try solve [auto with resp];
    first [ apply change_router_respects | apply cli_add_provider_respects
          | apply cli_add_model_respects | apply cli_delete_provider_respects
          | apply cli_delete_model_respects | apply delete_router_respects
          | apply set_long_context_threshold_respects | apply update_models_respects ].
Qed.

Lemma with_sections_equiv c : cfg_equiv c (with_sections c).
Proof. repeat split. Qed.



(* ------------------------------------------------------------------ *)
(** ** C1: models referenced by the router survive [update_models] *)

Lemma keeps_model_refl m c : keeps_model m c c.
Proof.
  split; [reflexivity|]. induction (providers_of c); constructor; auto.
Qed.

Lemma keeps_model_trans m c1 c2 c3 :
  keeps_model m c1 c2 -> keeps_model m c2 c3 -> keeps_model m c1 c3.
Proof.
  intros [Hr1 H1] [Hr2 H2]. split; [congruence|].
  revert H2. generalize (providers_of c3). induction H1; intros l3 H2; inversion H2; subst.
  - constructor.
  - constructor; auto.
Qed.

Lemma keeps_same_file {A} m (mm : M A) :
  (forall s, file (snd (mm s)) = file s) -> keeps m mm.
Proof. intros H s c Hf _. exists c. rewrite H. split; [exact Hf|apply keeps_model_refl]. Qed.

Lemma ret_keeps {A} m (a : A) : keeps m (ret a).
Proof. now apply keeps_same_file. Qed.

Lemma raise_keeps {A} m e : keeps m (@raise A e).
Proof. now apply keeps_same_file. Qed.

Lemma lift_keeps {A} m (r : res A) : keeps m (lift r).
Proof. now apply keeps_same_file. Qed.

Lemma say_keeps m msg : keeps m (say msg).
Proof. now apply keeps_same_file. Qed.

Lemma load_config_keeps m : keeps m ConfigManager.load_config.
Proof.
  apply keeps_same_file. intros s. unfold ConfigManager.load_config.
  destruct (file s) eqn:E; simpl; auto.
Qed.

Lemma bind_keeps {A B} m (mm : M A) (k : A -> M B) :
  keeps m mm -> (forall a, keeps m (k a)) -> keeps m (bind mm k).
Proof.
  intros Hm Hk s c Hf Hu. unfold bind.
  destruct (Hm s c Hf Hu) as [c1 [Hf1 Hk1]].
  destruct (mm s) as [[a|e] s1]; simpl in *.
  - pose proof Hk1 as [Hr1 _]. rewrite <- Hr1 in Hu.
    destruct (Hk a s1 c1 Hf1 Hu) as [c2 [Hf2 Hk2]].
    exists c2. split; [exact Hf2|]. eapply keeps_model_trans; eauto.
  - now exists c1.
Qed.

Lemma try_except_keeps {A} m (mm : M A) h :
  keeps m mm -> (forall e k, h e = Some k -> keeps m k) -> keeps m (try_except mm h).
Proof.
  intros Hm Hh s c Hf Hu. unfold try_except.
  destruct (Hm s c Hf Hu) as [c1 [Hf1 Hk1]].
  destruct (mm s) as [[a|e] s1]; simpl in *; [now exists c1|].
  destruct (h e) as [k|] eqn:Eh; [|now exists c1].
  pose proof Hk1 as [Hr1 _]. rewrite <- Hr1 in Hu.
  destruct (Hh e k Eh s1 c1 Hf1 Hu) as [c2 [Hf2 Hk2]].
  exists c2. split; [exact Hf2|]. eapply keeps_model_trans; eauto.
Qed.

Lemma for_each_keeps {A B} m (xs : list A) (acc : B) body :
  (forall x b, keeps m (body x b)) -> keeps m (for_each xs acc body).
Proof.
  intros Hb. revert acc. induction xs as [|x xs IH]; intros acc; simpl.
  - apply ret_keeps.
  - apply bind_keeps; [apply Hb | intros; apply IH].
Qed.

(** Continuing after [get_router_config] with the router that references
    [m]. *)
Lemma get_router_config_then_keeps {A} m (k : dict -> M A) :
  (forall r, Cli.in_used (JStr m) (Cli.used_models r) = true -> keeps m (k r)) ->
  keeps m (bind ConfigManager.get_router_config k).
Proof.
  intros Hk s c Hf Hu. destruct s as [f w cs]. simpl in Hf. subst f.
  unfold ConfigManager.get_router_config, ConfigManager.load_config, bind, ret. simpl.
  exact (Hk (router_of c) Hu (mkStore (Some c) w cs) c eq_refl Hu).
Qed.

Lemma get_router_config_keeps m : keeps m ConfigManager.get_router_config.
Proof.
  unfold ConfigManager.get_router_config. apply bind_keeps; intros; auto using load_config_keeps, ret_keeps.
Qed.

Lemma get_providers_keeps m : keeps m ConfigManager.get_providers.
Proof.
  unfold ConfigManager.get_providers. apply bind_keeps; intros; auto using load_config_keeps, ret_keeps.
Qed.

(** A save of [set_Providers c ps] keeps [m] when [ps] does. *)
Lemma save_providers_keeps m c ps s :
  file s = Some c ->
  Forall2 (fun p p' => py_in (JStr m) (models_of p) = true -> py_in (JStr m) (models_of p') = true)
    (providers_of c) ps ->
  exists c', file (snd (ConfigManager.save_config (set_Providers c ps) s)) = Some c'
             /\ keeps_model m c c'.
Proof.
  intros _ H. eexists; split; [reflexivity|]. split; [reflexivity|exact H].
Qed.

Lemma py_in_app_l x l l' : py_in x l = true -> py_in x (app l l') = true.
Proof. unfold py_in. rewrite existsb_app. intros ->. reflexivity. Qed.

Lemma Forall2_keep_refl m (ps : list provider) :
  Forall2 (fun p p' => py_in (JStr m) (models_of p) = true -> py_in (JStr m) (models_of p') = true)
    ps ps.
Proof. induction ps; constructor; auto. Qed.

Lemma add_model_loop_keeps m pn x ps ps' :
  ConfigManager.add_model_loop pn x ps = Some (Some ps') ->
  Forall2 (fun p p' => py_in (JStr m) (models_of p) = true -> py_in (JStr m) (models_of p') = true)
    ps ps'.
Proof.
  revert ps'. induction ps as [|p ps IH]; intros ps' H; simpl in H; [discriminate|].
  destruct (String.eqb (name p) pn).
  - destruct (negb (py_in x (models_of p))); [|discriminate].
    injection H as <-. constructor; [|apply Forall2_keep_refl].
    unfold models_of at 2, set_models; simpl. apply py_in_app_l.
  - destruct (ConfigManager.add_model_loop pn x ps) as [[ps''|]|] eqn:E; try discriminate.
    injection H as <-. constructor; [auto|]. now apply IH.
Qed.

Lemma add_model_to_provider_keeps m pn x : keeps m (ConfigManager.add_model_to_provider pn x).
Proof.
  intros s c Hf Hu. destruct s as [f w cs]. simpl in Hf. subst f.
  unfold ConfigManager.add_model_to_provider, ConfigManager.load_config, bind. simpl.
  destruct (ConfigManager.add_model_loop pn x (providers_of c)) as [[ps'|]|] eqn:E.
  - eapply save_providers_keeps; [reflexivity|]. eapply add_model_loop_keeps; eauto.
  - exists c. split; [reflexivity|apply keeps_model_refl].
  - exists c. split; [reflexivity|apply keeps_model_refl].
Qed.

Lemma py_eq_str_eq x t : py_eq x (JStr t) = true -> x = JStr t.
Proof.
  destruct x; simpl; try discriminate. intros H. apply String.eqb_eq in H. now subst.
Qed.

Lemma py_eq_sym_str t y : py_eq (JStr t) y = py_eq y (JStr t).
Proof.
  destruct y; simpl; try reflexivity. apply String.eqb_sym.
Qed.

Lemma remove_first_keeps t x l :
  py_eq x (JStr t) = false -> py_in (JStr t) l = true -> py_in (JStr t) (remove_first x l) = true.
Proof.
  intros Hx. induction l as [|y l IH]; intros H; [discriminate|].
  change (py_eq (JStr t) y || py_in (JStr t) l = true) in H.
  cbn [remove_first]. destruct (py_eq x y) eqn:Exy.
  - destruct (py_eq (JStr t) y) eqn:Ety.
    + rewrite py_eq_sym_str in Ety. apply py_eq_str_eq in Ety. subst y. congruence.
    + exact H.
  - change (py_eq (JStr t) y || py_in (JStr t) (remove_first x l) = true).
    destruct (py_eq (JStr t) y); [reflexivity|]. auto.
Qed.

Lemma delete_model_loop_keeps m x ps :
  py_eq x (JStr m) = false ->
  Forall2 (fun p p' => py_in (JStr m) (models_of p) = true -> py_in (JStr m) (models_of p') = true)
    ps (fst (ConfigManager.delete_model_loop x ps)).
Proof.
  intros Hx. induction ps as [|p ps IH]; simpl; [constructor|].
  destruct (ConfigManager.delete_model_loop x ps) as [ps'' found] eqn:E. simpl in IH.
  destruct (py_in x (models_of p)); simpl; constructor; auto.
  unfold models_of at 2, set_models; simpl. now apply remove_first_keeps.
Qed.

Lemma delete_model_keeps m x :
  py_eq x (JStr m) = false -> keeps m (ConfigManager.delete_model x).
Proof.
  intros Hx s c Hf Hu. destruct s as [f w cs]. simpl in Hf. subst f.
  unfold ConfigManager.delete_model, ConfigManager.load_config, bind. simpl.
  pose proof (delete_model_loop_keeps m x (providers_of c) Hx) as Hk.
  destruct (ConfigManager.delete_model_loop x (providers_of c)) as [ps' found]. simpl in Hk.
  destruct (negb found).
  - exists c. split; [reflexivity|apply keeps_model_refl].
  - eapply save_providers_keeps; [reflexivity|exact Hk].
Qed.

(** A model the router does not reference is not [m]. *)
Lemma unused_not_protected m x used :
  Cli.in_used x used = false -> Cli.in_used (JStr m) used = true -> py_eq x (JStr m) = false.
Proof.
  intros H1 H2. destruct (py_eq x (JStr m)) eqn:E; [|reflexivity].
  apply py_eq_str_eq in E. subst x. congruence.
Qed.

Create HintDb keep.
#[local] Hint Resolve ret_keeps raise_keeps lift_keeps say_keeps load_config_keeps
  get_router_config_keeps get_providers_keeps add_model_to_provider_keeps : keep.

Ltac keep_steps :=
  repeat match goal with
         | |- keeps _ _ => solve [auto with keep]
         | |- keeps _ (bind ConfigManager.get_router_config _) =>
             apply get_router_config_then_keeps; let Hu := fresh "Hu" in intros ? Hu
         | |- keeps _ (bind _ _) => apply bind_keeps; [|intro]
         | |- keeps _ (try_except _ _) =>
             apply try_except_keeps;
             [|let e := fresh "e" in let k := fresh "k" in let Hk := fresh "Hk" in
               intros e k Hk; destruct e; simpl in Hk;
               try discriminate; injection Hk as <-]
         | |- keeps _ (for_each _ _ _) => apply for_each_keeps; intros; cbv beta
         | |- keeps _ (match ?x with _ => _ end) => destruct x eqn:?
         end.

Lemma models_of_body_keeps m url data : keeps m (Cli.models_of_body url data).
Proof. unfold Cli.models_of_body. keep_steps. Qed.
#[local] Hint Resolve models_of_body_keeps : keep.

Lemma fetch_loop_keeps m get h urls : keeps m (Cli.fetch_loop get h urls).
Proof.
  induction urls as [|u urls IH]; simpl; [auto with keep|].
  destruct (get u h); keep_steps.
Qed.
#[local] Hint Resolve fetch_loop_keeps : keep.

Lemma fetch_models_from_endpoint_keeps m get u k :
  keeps m (Cli.fetch_models_from_endpoint get u k).
Proof. unfold Cli.fetch_models_from_endpoint. keep_steps. Qed.
#[local] Hint Resolve fetch_models_from_endpoint_keeps : keep.

Lemma reconcile_provider_keeps m pn cur fetched st :
  keeps m (Cli.reconcile_provider pn cur fetched st).
Proof.
  unfold Cli.reconcile_provider. keep_steps.
  apply delete_model_keeps. eapply unused_not_protected; [|exact Hu].
  now apply negb_true_iff.
Qed.
#[local] Hint Resolve reconcile_provider_keeps : keep.

Lemma process_provider_keeps m get p st : keeps m (Cli.process_provider get p st).
Proof. unfold Cli.process_provider. keep_steps. Qed.
#[local] Hint Resolve process_provider_keeps : keep.

Lemma say_entries_keeps m xs : keeps m (Cli.say_entries xs).
Proof. induction xs as [|[p x] xs IH]; simpl; keep_steps. Qed.
#[local] Hint Resolve say_entries_keeps : keep.

Lemma report_keeps m st : keeps m (Cli.report st).
Proof. unfold Cli.report. keep_steps. Qed.
#[local] Hint Resolve report_keeps : keep.

Lemma update_models_keeps m get : keeps m (Cli.update_models get).
Proof. unfold Cli.update_models. keep_steps. Qed.

Lemma bind_ok_inv {A B} (mm : M A) (k : A -> M B) s b s' :
  bind mm k s = (Ok b, s') -> exists a s1, mm s = (Ok a, s1) /\ k a s1 = (Ok b, s').
Proof.
  unfold bind. destruct (mm s) as [[a|e] s1]; [eauto|discriminate].
Qed.

(** The removal loop of [reconcile_provider], given the outcome of its body
    on one model. *)
Lemma remove_loop_report (pn : string) (used : list string) (xs : list json)
    (body : json -> entries * entries -> M (entries * entries)) :
  (forall x rem rt s rem1 rt1 s1, body x (rem, rt) s = (Ok (rem1, rt1), s1) ->
     (Cli.in_used x used = true -> rem1 = rem /\ rt1 = app rt [(pn, x)]) /\
     (Cli.in_used x used = false -> rt1 = rt /\ (rem1 = rem \/ rem1 = app rem [(pn, x)]))) ->
  forall rem rt s rem' rt' s', for_each xs (rem, rt) body s = (Ok (rem', rt'), s') ->
  (forall y, In y rt -> In y rt') /\
  (forall x, In x xs -> Cli.in_used x used = true -> In (pn, x) rt') /\
  (forall y, In y rem' -> In y rem \/ exists x, y = (pn, x) /\ Cli.in_used x used = false).
Proof.
  intros Hb. induction xs as [|x xs IH]; intros rem rt s rem' rt' s' H.
  - simpl in H. unfold ret in H. injection H as <- <- _.
    split; [auto|split; [intros x Hx; destruct Hx|auto]].
  - simpl in H. destruct (bind_ok_inv _ _ _ _ _ H) as [[rem1 rt1] [s1 [H1 H2]]].
    destruct (IH _ _ _ _ _ _ H2) as [Hmono [Hprot Hrem]].
    destruct (Hb _ _ _ _ _ _ _ H1) as [Ht Hf].
    destruct (Cli.in_used x used) eqn:Eu.
    + destruct (Ht eq_refl) as [-> ->].
      split; [intros y Hy; apply Hmono, in_or_app; now left|].
      split; [|exact Hrem].
      intros x0 [<- | Hx0] Hu0; [apply Hmono, in_or_app; right; now left|now apply Hprot].
    + destruct (Hf eq_refl) as [-> Hr].
      split; [exact Hmono|].
      split; [intros x0 [<- | Hx0] Hu0; [congruence|now apply Hprot]|].
      intros y Hy. destruct (Hrem y Hy) as [Hy1|Hy1]; [|now right].
      destruct Hr as [ -> | -> ]; [now left|].
      apply in_app_or in Hy1. destruct Hy1 as [Hy1|[<-|[]]]; [now left|].
      right. now exists x.
Qed.

Lemma keeps_run {A} m (mm : M A) s c r s1 :
  keeps m mm -> file s = Some c -> Cli.in_used (JStr m) (Cli.used_models (router_of c)) = true ->
  mm s = (r, s1) -> exists c1, file s1 = Some c1 /\ keeps_model m c c1.
Proof.
  intros Hk Hf Hu Hm. destruct (Hk s c Hf Hu) as [c1 [Hf1 Hk1]]. rewrite Hm in Hf1.
  now exists c1.
Qed.




(* ------------------------------------------------------------------ *)
(** ** Further properties of the program *)

Lemma ro_ret {A} (a : A) : ro (ret a).
Proof. now intros s. Qed.

Lemma ro_raise {A} e : ro (@raise A e).
Proof. now intros s. Qed.

Lemma ro_lift {A} (r : res A) : ro (lift r).
Proof. now intros s. Qed.

Lemma ro_say msg : ro (say msg).
Proof. now intros s. Qed.

Lemma ro_load : ro ConfigManager.load_config.
Proof. intros [[c|] w cs]; now unfold ConfigManager.load_config. Qed.

Lemma ro_bind {A B} (m : M A) (k : A -> M B) :
  ro m -> (forall a, ro (k a)) -> ro (bind m k).
Proof.
  intros Hm Hk s. unfold bind. specialize (Hm s).
  destruct (m s) as [[a|e] s'] eqn:E; simpl in *; [|exact Hm].
  destruct Hm as [Hm1 Hm2]. destruct (Hk a s') as [H1 H2]. split; congruence.
Qed.

Lemma ro_try_except {A} (m : M A) h :
  ro m -> (forall e k, h e = Some k -> ro k) -> ro (try_except m h).
Proof.
  intros Hm Hh s. unfold try_except. specialize (Hm s).
  destruct (m s) as [[a|e] s'] eqn:E; simpl in *; [exact Hm|].
  destruct (h e) as [k|] eqn:Eh; simpl; [|exact Hm].
  destruct Hm as [Hm1 Hm2]. destruct (Hh e k Eh s') as [H1 H2]. split; congruence.
Qed.

Lemma ro_for_each {A B} (xs : list A) (acc : B) body :
  (forall x b, ro (body x b)) -> ro (for_each xs acc body).
Proof.
  intros Hb. revert acc. induction xs as [|x xs IH]; intros acc; simpl.
  - apply ro_ret.
  - apply ro_bind; [apply Hb | intros; apply IH].
Qed.

Create HintDb ro.
#[local] Hint Resolve ro_ret ro_raise ro_lift ro_say ro_load : ro.

Ltac ro_steps :=
  repeat match goal with
         | |- ro _ => solve [auto with ro]
         | |- ro (bind _ _) => apply ro_bind; [|intro]
         | |- ro (try_except _ _) =>
             apply ro_try_except;
             [|let e := fresh "e" in let k := fresh "k" in let Hk := fresh "Hk" in
               intros e k Hk; destruct e; simpl in Hk;
               try discriminate; injection Hk as <-]
         | |- ro (for_each _ _ _) => apply ro_for_each; intros; cbv beta
         | |- ro (match ?x with _ => _ end) => destruct x
         end.

Lemma ro_get_router_config : ro ConfigManager.get_router_config.
Proof. unfold ConfigManager.get_router_config. ro_steps. Qed.

Lemma ro_get_providers : ro ConfigManager.get_providers.
Proof. unfold ConfigManager.get_providers. ro_steps. Qed.

Lemma ro_get_all_models : ro ConfigManager.get_all_models.
Proof. unfold ConfigManager.get_all_models. ro_steps. apply ro_get_providers. Qed.
#[local] Hint Resolve ro_get_router_config ro_get_providers ro_get_all_models : ro.

Lemma ro_find_providers_for_model m : ro (ConfigManager.find_providers_for_model m).
Proof. unfold ConfigManager.find_providers_for_model. ro_steps. Qed.

Lemma ro_validate_provider_model pn m : ro (ConfigManager.validate_provider_model pn m).
Proof. unfold ConfigManager.validate_provider_model. ro_steps. Qed.

Lemma ro_list_models : ro Cli.list_models.
Proof. unfold Cli.list_models. ro_steps. Qed.

Lemma ro_show_config : ro Cli.show_config.
Proof. unfold Cli.show_config, Cli.catch_file_not_found. ro_steps. Qed.
#[local] Hint Resolve ro_find_providers_for_model ro_validate_provider_model ro_list_models
  ro_show_config : ro.

Lemma ro_models_of_body url data : ro (Cli.models_of_body url data).
Proof. unfold Cli.models_of_body. ro_steps. Qed.
#[local] Hint Resolve ro_models_of_body : ro.

Lemma ro_fetch_loop get h urls : ro (Cli.fetch_loop get h urls).
Proof.
  induction urls as [|u urls IH]; simpl; [auto with ro|].
  destruct (get u h); ro_steps.
Qed.
#[local] Hint Resolve ro_fetch_loop : ro.

Lemma ro_fetch_models_from_endpoint get u k : ro (Cli.fetch_models_from_endpoint get u k).
Proof. unfold Cli.fetch_models_from_endpoint. ro_steps. Qed.

Lemma aget_aset {V} n k (v : V) d :
  aget n (aset k v d) = if String.eqb n k then Some v else aget n d.
Proof.
  destruct (String.eqb n k) eqn:E.
  - apply String.eqb_eq in E. subst. apply aget_aset_same.
  - apply aget_aset_other. intros ->. now rewrite String.eqb_refl in E.
Qed.

Lemma find_provider_app n l p :
  find_provider n (app l [p])
  = match find_provider n l with
    | Some q => Some q
    | None => if String.eqb (name p) n then Some p else None
    end.
Proof.
  induction l as [|q l IH]; simpl; [reflexivity|].
  destruct (String.eqb (name q) n); [reflexivity|exact IH].
Qed.

Lemma fold_aset_aget n ps d0 :
  aget n (fold_left (fun d p => aset (name p) (models_of p) d) ps d0)
  = match last_provider n ps with
    | Some p => Some (models_of p)
    | None => aget n d0
    end.
Proof.
  unfold last_provider. revert d0. induction ps as [|p ps IH]; intros d0; simpl; [reflexivity|].
  rewrite IH, find_provider_app, aget_aset, String.eqb_sym.
  destruct (find_provider n (rev ps)); [reflexivity|].
  destruct (String.eqb (name p) n); reflexivity.
Qed.

Lemma aset_keys_in {V} k (v : V) d x :
  In x (map fst (aset k v d)) -> x = k \/ In x (map fst d).
Proof.
  induction d as [|[k' v'] d IH]; simpl.
  - intros [<-|[]]. now left.
  - destruct (String.eqb k k'); simpl; intros [H|H]; auto.
    destruct (IH H); auto.
Qed.

Lemma aset_nodup {V} k (v : V) d : NoDup (map fst d) -> NoDup (map fst (aset k v d)).
Proof.
  induction d as [|[k' v'] d IH]; simpl; intros H.
  - constructor; [intros []|constructor].
  - inversion H as [|? ? Hn Hd]; subst.
    destruct (String.eqb k k') eqn:E; simpl; constructor; auto.
    intros Hin. destruct (aset_keys_in k v d k' Hin) as [->|Hin']; [|contradiction].
    now rewrite String.eqb_refl in E.
Qed.

Lemma fold_aset_nodup ps d0 :
  NoDup (map fst d0) ->
  NoDup (map fst (fold_left (fun d p => aset (name p) (models_of p) d) ps d0)).
Proof.
  revert d0. induction ps as [|p ps IH]; intros d0 H; simpl; [exact H|].
  apply IH, aset_nodup, H.
Qed.

Lemma in_aget_nodup {V} (d : list (string * V)) n v :
  NoDup (map fst d) -> (In (n, v) d <-> aget n d = Some v).
Proof.
  induction d as [|[k w] d IH]; simpl; intros H; [split; [intros []|discriminate]|].
  inversion H as [|? ? Hn Hd]; subst.
  destruct (String.eqb n k) eqn:E.
  - apply String.eqb_eq in E. subst. split.
    + intros [Heq|Hin]; [now injection Heq as ->|].
      exfalso. apply Hn. apply (in_map fst) in Hin. exact Hin.
    + intros Heq. injection Heq as ->. now left.
  - rewrite <- IH by exact Hd. split; [|now right].
    intros [Heq|Hin]; [|exact Hin]. injection Heq as -> ->. now rewrite String.eqb_refl in E.
Qed.

Lemma nodup_map_fst_filter {V} (f : string * V -> bool) d :
  NoDup (map fst d) -> NoDup (map fst (filter f d)).
Proof.
  induction d as [|x d IH]; simpl; intros H; [constructor|].
  inversion H as [|? ? Hn Hd]; subst.
  destruct (f x); simpl; [constructor|]; auto.
  intros Hin. apply Hn. apply in_map_iff in Hin. destruct Hin as [y [Hy Hin]].
  apply filter_In in Hin. rewrite <- Hy. now apply in_map.
Qed.

Lemma get_all_models_run c w cs :
  ConfigManager.get_all_models (mkStore (Some c) w cs)
  = (Ok (all_models_of (providers_of c)), mkStore (Some c) w cs).
Proof. reflexivity. Qed.

(** X1.  [get_all_models] reads the document without changing the store
    and returns a mapping with one entry per provider name; the models of
    a name are those of the last provider with that name. *)
Theorem get_all_models_last_wins (c : config) (s : store) :
  file s = Some c ->
  exists d, ConfigManager.get_all_models s = (Ok d, s) /\ NoDup (map fst d) /\
    forall n, aget n d = option_map models_of (last_provider n (providers_of c)).
Proof.
  intros Hf. destruct s as [f w cs]. simpl in Hf. subst f.
  exists (all_models_of (providers_of c)). split; [apply get_all_models_run|].
  split; [apply fold_aset_nodup; constructor|].
  intros n. unfold all_models_of. rewrite fold_aset_aget.
  now destruct (last_provider n (providers_of c)).
Qed.

Lemma get_all_models_last_wins_witness :
  exists d, ConfigManager.get_all_models (empty_store dup_names_doc) = (Ok d, empty_store dup_names_doc) /\
    NoDup (map fst d) /\
    forall n, aget n d = option_map models_of (last_provider n (providers_of dup_names_doc)).
Proof. exact (get_all_models_last_wins dup_names_doc (empty_store dup_names_doc) eq_refl). Defined.

(** X2.  [find_providers_for_model m] reads the document without changing
    the store and returns each provider name at most once: a name is
    listed exactly when the last provider with that name lists [m]. *)
Theorem find_providers_for_model_spec (c : config) (s : store) (m : string) :
  file s = Some c ->
  exists l, ConfigManager.find_providers_for_model m s = (Ok l, s) /\ NoDup l /\
    forall n, In n l <-> exists p, last_provider n (providers_of c) = Some p
                                    /\ py_in (JStr m) (models_of p) = true.
Proof.
  intros Hf. destruct s as [f w cs]. simpl in Hf. subst f.
  set (d := all_models_of (providers_of c)).
  assert (Hd : NoDup (map fst d)) by (apply fold_aset_nodup; constructor).
  exists (map fst (filter (fun kv => py_in (JStr m) (snd kv)) d)).
  split; [reflexivity|]. split; [now apply nodup_map_fst_filter|].
  intros n. rewrite in_map_iff. split.
  - intros [[k ms] [Hk Hin]]. simpl in Hk. subst k.
    apply filter_In in Hin. destruct Hin as [Hin Hm]. simpl in Hm.
    apply (in_aget_nodup d n ms Hd) in Hin. unfold d, all_models_of in Hin.
    rewrite fold_aset_aget in Hin.
    destruct (last_provider n (providers_of c)) as [p|]; [|discriminate].
    injection Hin as <-. now exists p.
  - intros [p [Hp Hm]]. exists (n, models_of p). split; [reflexivity|].
    apply filter_In. split; [|exact Hm].
    apply (in_aget_nodup d n _ Hd). unfold d, all_models_of.
    now rewrite fold_aset_aget, Hp.
Qed.

Lemma find_providers_for_model_spec_witness :
  exists l, ConfigManager.find_providers_for_model "m1" (empty_store dup_names_doc)
            = (Ok l, empty_store dup_names_doc) /\ NoDup l /\
    forall n, In n l <-> exists p, last_provider n (providers_of dup_names_doc) = Some p
                                    /\ py_in (JStr "m1") (models_of p) = true.
Proof. exact (find_providers_for_model_spec dup_names_doc (empty_store dup_names_doc) "m1" eq_refl). Defined.

(** X3.  [validate_provider_model pn m] reads the document without
    changing the store, and is true exactly when the last provider named
    [pn] lists [m] (false when no provider has that name). *)
Theorem validate_provider_model_spec (c : config) (s : store) (pn m : string) :
  file s = Some c ->
  ConfigManager.validate_provider_model pn m s
  = (Ok (match last_provider pn (providers_of c) with
         | Some p => py_in (JStr m) (models_of p)
         | None => false
         end), s).
Proof.
  intros Hf. destruct s as [f w cs]. simpl in Hf. subst f.
  unfold ConfigManager.validate_provider_model. rewrite bind_ok with (a := all_models_of (providers_of c)) (s' := mkStore (Some c) w cs) by apply get_all_models_run.
  unfold ret, all_models_of. rewrite fold_aset_aget.
  now destruct (last_provider pn (providers_of c)).
Qed.

Lemma validate_provider_model_spec_witness :
  ConfigManager.validate_provider_model "p1" "m1" (empty_store dup_names_doc)
  = (Ok false, empty_store dup_names_doc).
Proof. exact (validate_provider_model_spec dup_names_doc (empty_store dup_names_doc) "p1" "m1" eq_refl). Defined.

Lemma length_filter_eqb {A} (f : A -> bool) l :
  Nat.eqb (length (filter f l)) (length l) = forallb f l.
Proof.
  induction l as [|x l IH]; simpl; [reflexivity|].
  destruct (f x); simpl; [exact IH|].
  apply Nat.eqb_neq. pose proof (filter_length_le f l). lia.
Qed.

Lemma forallb_negb_existsb {A} (f : A -> bool) l :
  forallb (fun x => negb (f x)) l = negb (existsb f l).
Proof. induction l as [|x l IH]; simpl; [reflexivity|]. rewrite IH. now destruct (f x). Qed.

(** X4.  [delete_provider pn] removes every provider named [pn] (not only
    the first), keeps the other providers in their order and the rest of
    the document, and saves once; when no provider has that name it raises
    "Provider 'pn' not found" and leaves the store unchanged. *)
Theorem delete_provider_removes_all_named (c : config) (s : store) (pn : string) :
  file s = Some c ->
  ConfigManager.delete_provider pn s
  = if existsb (fun p => String.eqb (name p) pn) (providers_of c) then
      (Ok tt, mkStore (Some (set_Providers c
                               (filter (fun p => negb (String.eqb (name p) pn)) (providers_of c))))
                      (S (writes s)) (console s))
    else (Err (ValueError ("Provider '" ++ pn ++ "' not found")), s).
Proof.
  intros Hf. destruct s as [f w cs]. simpl in Hf. subst f.
  unfold ConfigManager.delete_provider, ConfigManager.load_config, bind. simpl.
  rewrite length_filter_eqb, forallb_negb_existsb.
  now destruct (existsb (fun p => String.eqb (name p) pn) (providers_of c)).
Qed.

Lemma delete_provider_removes_all_named_witness :
  ConfigManager.delete_provider "p1" (empty_store dup_names_doc)
  = (Ok tt, mkStore (Some (set_Providers dup_names_doc
                             [mkProvider "p2" "http://b" None (Some [JStr "m1"]) []])) 1 []).
Proof. exact (delete_provider_removes_all_named dup_names_doc (empty_store dup_names_doc) "p1" eq_refl). Defined.

Lemma delete_model_loop_spec m ps :
  ConfigManager.delete_model_loop m ps
  = (without_one m ps, existsb (fun p => py_in m (models_of p)) ps).
Proof.
  induction ps as [|p ps IH]; simpl; [reflexivity|]. rewrite IH.
  now destruct (py_in m (models_of p)).
Qed.

Lemma count_model_remove_first m l :
  py_in (JStr m) l = true -> count_model m (remove_first (JStr m) l) = count_model m l - 1.
Proof.
  unfold count_model. induction l as [|y l IH]; intros H; [discriminate|].
  change (py_eq (JStr m) y || py_in (JStr m) l = true) in H.
  cbn [remove_first]. destruct (py_eq (JStr m) y) eqn:E.
  - cbn [filter]. rewrite E. cbn [length]. lia.
  - cbn [filter]. rewrite E. cbn [orb] in H. rewrite IH by exact H.
    assert (0 < length (filter (py_eq (JStr m)) l))%nat; [|lia].
    unfold py_in in H. apply existsb_exists in H. destruct H as [z [Hz Ez]].
    destruct (filter (py_eq (JStr m)) l) eqn:F; [|simpl; lia].
    assert (In z (filter (py_eq (JStr m)) l)) by (apply filter_In; auto).
    rewrite F in H. destruct H.
Qed.

(** X5.  [delete_model m] removes exactly one occurrence of [m] from each
    provider that lists it (so its count there drops by one), leaves the
    other providers, the router section and the rest of the document as
    they are, and saves once; when no provider lists [m] it raises
    "Model 'm' not found in any provider" and leaves the store
    unchanged. *)
Theorem delete_model_removes_one_occurrence (c : config) (s : store) (m : string) :
  file s = Some c ->
  ConfigManager.delete_model (JStr m) s
  = (if existsb (fun p => py_in (JStr m) (models_of p)) (providers_of c) then
       (Ok tt, mkStore (Some (set_Providers c (without_one (JStr m) (providers_of c))))
                       (S (writes s)) (console s))
     else (Err (ValueError ("Model '" ++ m ++ "' not found in any provider")), s))
  /\ Forall2 (fun p p' => count_model m (models_of p')
                          = if py_in (JStr m) (models_of p) then count_model m (models_of p) - 1
                            else count_model m (models_of p))
             (providers_of c) (without_one (JStr m) (providers_of c)).
Proof.
  intros Hf. destruct s as [f w cs]. simpl in Hf. subst f. split.
  - unfold ConfigManager.delete_model, ConfigManager.load_config, bind. simpl.
    rewrite delete_model_loop_spec.
    now destruct (existsb (fun p => py_in (JStr m) (models_of p)) (providers_of c)).
  - unfold without_one. induction (providers_of c) as [|p ps IH]; simpl; constructor; auto.
    destruct (py_in (JStr m) (models_of p)) eqn:E; [|reflexivity].
    unfold models_of at 1, set_models. simpl. now apply count_model_remove_first.
Qed.

Lemma delete_model_removes_one_occurrence_witness :
  ConfigManager.delete_model (JStr "m1") (empty_store dup_names_doc)
  = (Ok tt, mkStore (Some (set_Providers dup_names_doc
                             [mkProvider "p1" "http://a" None (Some []) [];
                              mkProvider "p2" "http://b" None (Some []) [];
                              mkProvider "p1" "http://c" None (Some [JStr "m2"]) []])) 1 []).
Proof.
  exact (proj1 (delete_model_removes_one_occurrence dup_names_doc (empty_store dup_names_doc)
                  "m1" eq_refl)).
Defined.

(** X6.  [update_router_config r] replaces the router section by [r] with
    one save, after which [get_router_config] returns [r]; the providers
    and the other top-level keys are untouched. *)
Theorem update_router_config_roundtrip (c : config) (s : store) (r : dict) :
  file s = Some c ->
  exists s', ConfigManager.update_router_config r s = (Ok tt, s')
    /\ file s' = Some (set_Router c r) /\ writes s' = S (writes s)
    /\ ConfigManager.get_router_config s' = (Ok r, s')
    /\ fst (ConfigManager.get_providers s') = Ok (providers_of c)
    /\ rest (set_Router c r) = rest c.
Proof.
  intros Hf. destruct s as [f w cs]. simpl in Hf. subst f.
  eexists. split; [reflexivity|]. repeat split.
Qed.

Lemma update_router_config_roundtrip_witness :
  exists s', ConfigManager.update_router_config [("default", JStr "p2,m1")] (empty_store c10_doc)
             = (Ok tt, s')
    /\ file s' = Some (set_Router c10_doc [("default", JStr "p2,m1")]) /\ writes s' = 1%nat
    /\ ConfigManager.get_router_config s' = (Ok [("default", JStr "p2,m1")], s')
    /\ fst (ConfigManager.get_providers s') = Ok (providers_of c10_doc)
    /\ rest (set_Router c10_doc [("default", JStr "p2,m1")]) = rest c10_doc.
Proof.
  exact (update_router_config_roundtrip c10_doc (empty_store c10_doc) _ eq_refl).
Defined.

Lemma filter_all_other_names pn ps :
  (forall q, In q ps -> name q <> pn) ->
  filter (fun p => negb (String.eqb (name p) pn)) ps = ps.
Proof.
  induction ps as [|q ps IH]; intros H; simpl; [reflexivity|].
  destruct (String.eqb (name q) pn) eqn:E.
  - apply String.eqb_eq in E. exfalso. exact (H q (or_introl eq_refl) E).
  - simpl. f_equal. apply IH. intros q' Hq'. apply H. now right.
Qed.

(** X7.  Adding a provider whose name and base URL are new, then deleting
    it by name, gives back the original provider list (with the
    "Providers" section present) after two saves. *)
Theorem add_then_delete_provider (c : config) (s : store) (p : provider) :
  file s = Some c ->
  (forall q, In q (providers_of c) -> name q <> name p /\ api_base_url q <> api_base_url p) ->
  (ConfigManager.add_provider p ;; ConfigManager.delete_provider (name p)) s
  = (Ok tt, mkStore (Some (set_Providers c (providers_of c))) (S (S (writes s))) (console s)).
Proof.
  intros Hf Hfresh. destruct s as [f w cs]. simpl in Hf. subst f.
  unfold bind at 1.
  unfold ConfigManager.add_provider, ConfigManager._check_duplicate_provider,
    ConfigManager.get_providers, ConfigManager.load_config, bind, ret. simpl.
  rewrite (check_duplicate_loop_fresh p (providers_of c) _ Hfresh).
  unfold ConfigManager.delete_provider, ConfigManager.load_config, bind. simpl.
  change (providers_of (set_Providers c (app (providers_of c) [p])))
    with (app (providers_of c) [p]).
  rewrite filter_app. cbn [filter]. rewrite String.eqb_refl. simpl.
  rewrite filter_all_other_names by (intros q Hq; apply (Hfresh q Hq)).
  rewrite app_nil_r, length_app. simpl.
  replace (Nat.eqb (length (providers_of c)) (length (providers_of c) + 1)) with false
    by (symmetry; apply Nat.eqb_neq; lia).
  reflexivity.
Qed.

Lemma add_then_delete_provider_witness :
  (ConfigManager.add_provider (mkProvider "p3" "http://d" None (Some []) []) ;;
   ConfigManager.delete_provider "p3") (empty_store dup_names_doc)
  = (Ok tt, mkStore (Some (set_Providers dup_names_doc (providers_of dup_names_doc))) 2 []).
Proof.
  refine (add_then_delete_provider dup_names_doc (empty_store dup_names_doc)
            (mkProvider "p3" "http://d" None (Some []) []) eq_refl _).
  intros q Hq. simpl in Hq.
  destruct Hq as [<-|[<-|[<-|[]]]]; simpl; split; discriminate.
Defined.

Lemma bind_inv {A B} (m : M A) (k : A -> M B) s r s' :
  bind m k s = (r, s') ->
  (exists a s1, m s = (Ok a, s1) /\ k a s1 = (r, s')) \/ (exists e, m s = (Err e, s') /\ r = Err e).
Proof.
  unfold bind. destruct (m s) as [[a|e] s1]; intros H; [left; eauto|right].
  injection H as <- <-. eauto.
Qed.

Lemma try_except_inv {A} (m : M A) h s r s' :
  try_except m h s = (r, s') ->
  (m s = (r, s') /\ exists a, r = Ok a) \/
  (exists e s1, m s = (Err e, s1) /\
     ((exists k, h e = Some k /\ k s1 = (r, s')) \/ (h e = None /\ r = Err e /\ s' = s1))).
Proof.
  unfold try_except. destruct (m s) as [[a|e] s1]; intros H.
  - left. split; [exact H|]. injection H as <- _. eauto.
  - right. exists e, s1. split; [reflexivity|].
    destruct (h e) as [k|]; [left; eauto|right]. injection H as <- <-. auto.
Qed.

Lemma fails_raise {A} e : fails (@raise A e).
Proof. intros s a s'. unfold raise. discriminate. Qed.

Lemma fails_bind {A B} (m : M A) (k : A -> M B) : (forall a, fails (k a)) -> fails (bind m k).
Proof.
  intros Hk s b s' H. destruct (bind_inv _ _ _ _ _ H) as [[a [s1 [_ H2]]]|[e [_ He]]].
  - exact (Hk a s1 b s' H2).
  - discriminate.
Qed.

Ltac fails_steps :=
  repeat first [ apply fails_raise | apply fails_bind; intros ? ].

Lemma change_router_split rt mv nr ccr :
  Cli.change_router rt mv nr ccr
  = if negb (existsb (String.eqb rt) Cli.valid_types_change) then
      say ("[red]Invalid router type: " ++ rt ++ "[/red]" ++ nl
           ++ "Valid types: " ++ Cli.join_plain Cli.valid_types_change) ;;
      raise (SystemExit 1)
    else Cli.catch_file_not_found (v <- change_router_value mv ;; change_router_tail rt nr ccr v).
Proof. reflexivity. Qed.

Lemma ro_run {A} (m : M A) s r s' : ro m -> m s = (r, s') -> file s' = file s /\ writes s' = writes s.
Proof. intros Hm Hms. destruct (Hm s) as [A1 B1]. rewrite Hms in A1, B1. now split. Qed.

Lemma change_router_tail_run rt nr ccr v c w cs r s' :
  change_router_tail rt nr ccr v (mkStore (Some c) w cs) = (r, s') ->
  r = Ok tt /\ file s' = Some (set_Router c (aset rt (JStr v) (router_of c))) /\ writes s' = S w.
Proof.
  unfold change_router_tail, ConfigManager.get_router_config, ConfigManager.update_router_config,
    ConfigManager.load_config, ConfigManager.save_config, bind, say, ret.
  destruct nr, ccr, (String.eqb rt "longContext"); cbn; intros H; injection H as <- <-; auto.
Qed.

Lemma ro_change_router_value mv : ro (change_router_value mv).
Proof. unfold change_router_value. ro_steps. Qed.

(** The value [change_router] stores names a provider and one of its
    models: [pn,mn] where the last provider named [pn] lists [mn]. *)
Lemma change_router_value_ok c mv w cs v s' :
  change_router_value mv (mkStore (Some c) w cs) = (Ok v, s') ->
  exists pn mn q, v = pn ++ "," ++ mn /\ last_provider pn (providers_of c) = Some q
                  /\ py_in (JStr mn) (models_of q) = true.
Proof.
  unfold change_router_value. intros H.
  destruct (str_contains "," mv).
  - destruct (split1 mv) as [a b].
    destruct (bind_inv _ _ _ _ _ H) as [[ok [s1 [H1 H2]]]|[e [_ He]]]; [|discriminate].
    rewrite (validate_provider_model_spec c (mkStore (Some c) w cs) _ _ eq_refl) in H1. injection H1 as <- <-.
    destruct (last_provider (strip a) (providers_of c)) as [q|] eqn:Eq.
    + destruct (py_in (JStr (strip b)) (models_of q)) eqn:Em; simpl in H2.
      * unfold ret in H2. injection H2 as <- _. now exists (strip a), (strip b), q.
      * exfalso. revert H2. apply fails_bind. intros _. fails_steps.
    + exfalso. simpl in H2. revert H2. apply fails_bind. intros _. fails_steps.
  - destruct (bind_inv _ _ _ _ _ H) as [[l [s1 [H1 H2]]]|[e [_ He]]]; [|discriminate].
    destruct (find_providers_for_model_spec c (mkStore (Some c) w cs) (strip mv) eq_refl)
      as [l' [Hl [_ Hin]]].
    rewrite Hl in H1. injection H1 as <- <-.
    destruct l' as [|pn [|pn2 l']].
    + exfalso. revert H2. apply fails_bind. intros _. fails_steps.
    + unfold ret in H2. injection H2 as <- _.
      destruct (proj1 (Hin pn) (or_introl eq_refl)) as [q [Hq Hm]].
      now exists pn, (strip mv), q.
    + exfalso. revert H2. apply fails_bind. intros _. fails_steps.
Qed.

Lemma change_router_ok_inv c w cs rt mv nr ccr u s' :
  Cli.change_router rt mv nr ccr (mkStore (Some c) w cs) = (Ok u, s') ->
  existsb (String.eqb rt) Cli.valid_types_change = true /\
  exists v s1, change_router_value mv (mkStore (Some c) w cs) = (Ok v, s1)
               /\ change_router_tail rt nr ccr v s1 = (Ok u, s').
Proof.
  intros H. rewrite change_router_split in H.
  destruct (existsb (String.eqb rt) Cli.valid_types_change) eqn:Ev; cbn [negb] in H.
  2:{ exfalso. revert H. apply fails_bind. intros _. fails_steps. }
  split; [reflexivity|]. unfold Cli.catch_file_not_found in H.
  destruct (try_except_inv _ _ _ _ _ H) as [[H1 _]|[e [s1 [H1 Hh]]]].
  - destruct (bind_inv _ _ _ _ _ H1) as [[v [s1 [Hv Ht]]]|[e [_ He]]]; [eauto|discriminate].
  - exfalso. destruct Hh as [[k [Hk Hks]]|[_ [He _]]]; [|discriminate].
    destruct e; simpl in Hk; try discriminate. injection Hk as <-. revert Hks. fails_steps.
Qed.

Lemma change_router_err_keeps c w cs rt mv nr ccr e s' :
  Cli.change_router rt mv nr ccr (mkStore (Some c) w cs) = (Err e, s') ->
  file s' = Some c /\ writes s' = w.
Proof.
  intros H. rewrite change_router_split in H.
  destruct (existsb (String.eqb rt) Cli.valid_types_change) eqn:Ev; cbn [negb] in H.
  2:{ apply ro_run in H; [exact H|ro_steps]. }
  unfold Cli.catch_file_not_found in H.
  destruct (try_except_inv _ _ _ _ _ H) as [[_ [u Hr]]|[e1 [s1 [H1 Hh]]]]; [discriminate|].
  assert (Hs1 : file s1 = Some c /\ writes s1 = w).
  { destruct (bind_inv _ _ _ _ _ H1) as [[v [s2 [Hv Ht]]]|[e' [He' _]]].
    - destruct (ro_run _ _ _ _ (ro_change_router_value mv) Hv) as [Hf2 Hw2].
      destruct s2 as [f2 w2 cs2]. simpl in Hf2, Hw2. subst f2 w2.
      apply change_router_tail_run in Ht. destruct Ht as [Ht _]. discriminate.
    - exact (ro_run _ _ _ _ (ro_change_router_value mv) He'). }
  destruct Hh as [[k [Hk Hks]]|[_ [_ ->]]]; [|exact Hs1].
  destruct e1; simpl in Hk; try discriminate. injection Hk as <-.
  apply ro_run in Hks; [|ro_steps]. simpl in Hks. destruct Hks as [-> ->]. exact Hs1.
Qed.









(** X12.  A confirmed [delete-router] of a deletable type succeeds.  If
    the router has an entry for the type, the entry (its first occurrence)
    is popped and the document is saved once; for "longContext" an
    existing "longContextThreshold" entry is popped with it.  If the router
    has no entry for the type, nothing is written. *)
Theorem delete_router_confirmed_outcome (c : config) (s : store) (rt answer : string) (ac : bool) :
  file s = Some c ->
  existsb (String.eqb rt) Cli.valid_types_delete = true ->
  Cli.confirmed ac answer = true ->
  let r := router_of c in
  fst (Cli.delete_router rt ac answer s) = Ok tt /\
  file (snd (Cli.delete_router rt ac answer s))
  = (if amem rt r then
       Some (set_Router c
               (apop rt (if String.eqb rt "longContext" && amem "longContextThreshold" r
                         then apop "longContextThreshold" r else r)))
     else Some c) /\
  writes (snd (Cli.delete_router rt ac answer s))
  = (if amem rt r then S (writes s) else writes s).
Proof.
  intros Hf Hv Hc r. destruct s as [f w cs]. simpl in Hf. subst f.
  unfold Cli.delete_router. rewrite Hv, Hc. cbn [negb].
  unfold Cli.catch_file_not_found, try_except, ConfigManager.get_router_config,
    ConfigManager.update_router_config, ConfigManager.load_config, ConfigManager.save_config,
    bind, ret, say.
  cbn [file writes console fst snd]. fold r.
  destruct (amem rt r); cbn [negb];
    [destruct (String.eqb rt "longContext" && amem "longContextThreshold" r)|];
    repeat split.
Qed.

Lemma delete_router_confirmed_outcome_witness :
  let r := router_of lc_doc in
  fst (Cli.delete_router "longContext" false " Y" (empty_store lc_doc)) = Ok tt /\
  file (snd (Cli.delete_router "longContext" false " Y" (empty_store lc_doc)))
  = (if amem "longContext" r then
       Some (set_Router lc_doc
               (apop "longContext"
                  (if String.eqb "longContext" "longContext" && amem "longContextThreshold" r
                   then apop "longContextThreshold" r else r)))
     else Some lc_doc) /\
  writes (snd (Cli.delete_router "longContext" false " Y" (empty_store lc_doc)))
  = (if amem "longContext" r then S (writes (empty_store lc_doc)) else writes (empty_store lc_doc)).
Proof.
  exact (delete_router_confirmed_outcome lc_doc (empty_store lc_doc) "longContext" " Y" false
           eq_refl eq_refl eq_refl).
Defined.

(** X13.  [validate_provider_endpoint] answers the base URL with its
    trailing slashes removed, [b], adjusted by at most one "/v1": when [b]
    ends with "/v1" the answer is [b] or [b] without its last three
    characters, otherwise it is [b] or [b ++ "/v1"], whatever the
    endpoint answers. *)
Theorem validate_provider_endpoint_range (get : http) (base_url : string) :
  let b := rstrip_slash base_url in
  let v := ConfigManager.validate_provider_endpoint get base_url in
  if endswith b "/v1" then v = b \/ v = str_drop_last3 b else v = b \/ v = b ++ "/v1".
Proof.
  intros b v. subst v. unfold ConfigManager.validate_provider_endpoint. fold b.
  destruct (candidate_urls b) as [u1 u2].
  destruct (endswith b "/v1") eqn:E;
    destruct (get u1 None) as [c1 d1|e1]; destruct (get u2 None) as [c2 d2|e2];
    repeat match goal with
           | |- context [if ?x then _ else _] => destruct x
           end; auto.
Qed.

Lemma ro_bind_known {A B} (m : M A) (a : A) (k : A -> M B) :
  (forall s, fst (m s) = Ok a) -> ro m -> ro (k a) -> ro (bind m k).
Proof.
  intros Ha Hm Hk s. unfold bind. specialize (Ha s). destruct (Hm s) as [Hf Hw].
  destruct (m s) as [r s1]. simpl in Ha, Hf, Hw. subst r.
  destruct (Hk s1) as [Hf' Hw']. split; congruence.
Qed.

Lemma fetch_loop_down get h urls s :
  (forall u h', exists e, get u h' = RequestException e) ->
  fst (Cli.fetch_loop get h urls s) = Ok (JList []).
Proof.
  intros Hd. revert s. induction urls as [|u urls IH]; intros s; [reflexivity|].
  simpl. destruct (Hd u h) as [e ->]. unfold bind, say. apply IH.
Qed.



Lemma ro_say_entries xs : ro (Cli.say_entries xs).
Proof. induction xs as [|[p m] xs IH]; simpl; ro_steps. Qed.

Lemma ro_report st : ro (Cli.report st).
Proof. unfold Cli.report. pose proof ro_say_entries. ro_steps. Qed.

Lemma ro_process_provider_down get p st :
  (forall u h, exists e, get u h = RequestException e) -> ro (Cli.process_provider get p st).
Proof.
  intros Hd. unfold Cli.process_provider.
  apply ro_bind; [ro_steps|intros cur]. apply ro_bind; [ro_steps|intros _].
  apply (ro_bind_known _ (JList [])).
  - intros s. unfold Cli.fetch_models_from_endpoint. destruct (candidate_urls _).
    apply fetch_loop_down, Hd.
  - apply ro_fetch_models_from_endpoint.
  - apply (ro_bind_known _ []); [reflexivity|ro_steps|].
    unfold Cli.reconcile_provider. ro_steps.
Qed.

(** X15.  When every HTTP request raises [RequestException], [ccs update]
    writes nothing: every provider keeps its models ("No models fetched
    ... Keeping existing models") and the file and the write count are
    left as they were, whatever the document holds. *)
Theorem update_models_network_down (get : http) (s : store) :
  (forall u h, exists e, get u h = RequestException e) ->
  file (snd (Cli.update_models get s)) = file s /\ writes (snd (Cli.update_models get s)) = writes s.
Proof.
  intros Hd. assert (Hp : forall p st, ro (Cli.process_provider get p st))
    by (intros; apply ro_process_provider_down, Hd).
  pose proof ro_report as Hr.
  revert s. change (ro (Cli.update_models get)). unfold Cli.update_models. ro_steps.
Qed.

Lemma update_models_network_down_witness :
  file (snd (Cli.update_models network_down (empty_store dup_names_doc)))
  = file (empty_store dup_names_doc) /\
  writes (snd (Cli.update_models network_down (empty_store dup_names_doc)))
  = writes (empty_store dup_names_doc).
Proof.
  apply (update_models_network_down network_down (empty_store dup_names_doc)).
  intros u h. exists "Connection refused". reflexivity.
Defined.

Lemma same_shape_refl c : same_shape c c.
Proof. repeat split. Qed.

Lemma same_shape_trans c1 c2 c3 : same_shape c1 c2 -> same_shape c2 c3 -> same_shape c1 c3.
Proof. intros [A1 [B1 C1]] [A2 [B2 C2]]. repeat split; congruence. Qed.

Lemma keeps_shape_ro {A} (mm : M A) : ro mm -> keeps_shape mm.
Proof.
  intros H s c Hf. exists c. split; [|apply same_shape_refl].
  destruct (H s) as [H1 _]. congruence.
Qed.

Lemma bind_keeps_shape {A B} (mm : M A) (k : A -> M B) :
  keeps_shape mm -> (forall a, keeps_shape (k a)) -> keeps_shape (bind mm k).
Proof.
  intros Hm Hk s c Hf. unfold bind.
  destruct (Hm s c Hf) as [c1 [Hf1 Hs1]].
  destruct (mm s) as [[a|e] s1]; simpl in *; [|now exists c1].
  destruct (Hk a s1 c1 Hf1) as [c2 [Hf2 Hs2]].
  exists c2. split; [exact Hf2|]. eapply same_shape_trans; eauto.
Qed.

Lemma try_except_keeps_shape {A} (mm : M A) h :
  keeps_shape mm -> (forall e k, h e = Some k -> keeps_shape k) -> keeps_shape (try_except mm h).
Proof.
  intros Hm Hh s c Hf. unfold try_except.
  destruct (Hm s c Hf) as [c1 [Hf1 Hs1]].
  destruct (mm s) as [[a|e] s1]; simpl in *; [now exists c1|].
  destruct (h e) as [k|] eqn:Eh; [|now exists c1].
  destruct (Hh e k Eh s1 c1 Hf1) as [c2 [Hf2 Hs2]].
  exists c2. split; [exact Hf2|]. eapply same_shape_trans; eauto.
Qed.

Lemma for_each_keeps_shape {A B} (xs : list A) (acc : B) body :
  (forall x b, keeps_shape (body x b)) -> keeps_shape (for_each xs acc body).
Proof.
  intros Hb. revert acc. induction xs as [|x xs IH]; intros acc; simpl.
  - apply keeps_shape_ro, ro_ret.
  - apply bind_keeps_shape; [apply Hb | intros; apply IH].
Qed.

Lemma save_providers_same_shape c ps :
  map provider_shape ps = map provider_shape (providers_of c) ->
  same_shape c (set_Providers c ps).
Proof. intros H. repeat split. exact H. Qed.

Lemma add_model_loop_shape pn x ps ps' :
  ConfigManager.add_model_loop pn x ps = Some (Some ps') ->
  map provider_shape ps' = map provider_shape ps.
Proof.
  revert ps'. induction ps as [|p ps IH]; intros ps' H; simpl in H; [discriminate|].
  destruct (String.eqb (name p) pn).
  - destruct (negb (py_in x (models_of p))); [|discriminate].
    injection H as <-. reflexivity.
  - destruct (ConfigManager.add_model_loop pn x ps) as [[ps''|]|] eqn:E; try discriminate.
    injection H as <-. simpl. f_equal. now apply IH.
Qed.

Lemma add_model_to_provider_keeps_shape pn x :
  keeps_shape (ConfigManager.add_model_to_provider pn x).
Proof.
  intros s c Hf. destruct s as [f w cs]. simpl in Hf. subst f.
  unfold ConfigManager.add_model_to_provider, ConfigManager.load_config, bind. simpl.
  destruct (ConfigManager.add_model_loop pn x (providers_of c)) as [[ps'|]|] eqn:E.
  - eexists; split; [reflexivity|]. apply save_providers_same_shape.
    eapply add_model_loop_shape; eauto.
  - exists c. split; [reflexivity|apply same_shape_refl].
  - exists c. split; [reflexivity|apply same_shape_refl].
Qed.

Lemma delete_model_loop_shape x ps :
  map provider_shape (fst (ConfigManager.delete_model_loop x ps)) = map provider_shape ps.
Proof.
  induction ps as [|p ps IH]; simpl; [reflexivity|].
  destruct (ConfigManager.delete_model_loop x ps) as [ps'' found]. simpl in IH.
  destruct (py_in x (models_of p)); simpl; f_equal; exact IH.
Qed.

Lemma delete_model_keeps_shape x : keeps_shape (ConfigManager.delete_model x).
Proof.
  intros s c Hf. destruct s as [f w cs]. simpl in Hf. subst f.
  unfold ConfigManager.delete_model, ConfigManager.load_config, bind. simpl.
  pose proof (delete_model_loop_shape x (providers_of c)) as Hs.
  destruct (ConfigManager.delete_model_loop x (providers_of c)) as [ps' found]. simpl in Hs.
  destruct (negb found).
  - exists c. split; [reflexivity|apply same_shape_refl].
  - eexists; split; [reflexivity|]. now apply save_providers_same_shape.
Qed.

Create HintDb shape.
#[local] Hint Resolve add_model_to_provider_keeps_shape delete_model_keeps_shape : shape.

Ltac shape_steps :=
  repeat match goal with
         | |- keeps_shape _ => solve [auto with shape | apply keeps_shape_ro; ro_steps]
         | |- keeps_shape (bind _ _) => apply bind_keeps_shape; [|intro]
         | |- keeps_shape (try_except _ _) =>
             apply try_except_keeps_shape;
             [|let e := fresh "e" in let k := fresh "k" in let Hk := fresh "Hk" in
               intros e k Hk; destruct e; simpl in Hk;
               try discriminate; injection Hk as <-]
         | |- keeps_shape (for_each _ _ _) => apply for_each_keeps_shape; intros; cbv beta
         | |- keeps_shape (match ?x with _ => _ end) => destruct x
         end.

Lemma reconcile_provider_keeps_shape pn cur fetched st :
  keeps_shape (Cli.reconcile_provider pn cur fetched st).
Proof. unfold Cli.reconcile_provider. shape_steps. Qed.

Lemma process_provider_keeps_shape get p st : keeps_shape (Cli.process_provider get p st).
Proof.
  unfold Cli.process_provider. pose proof reconcile_provider_keeps_shape.
  pose proof ro_fetch_models_from_endpoint. shape_steps.
Qed.

(** X16.  [ccs update] changes nothing but model lists: whatever the
    endpoints answer and however the run ends, the Router section, the
    other top-level keys, and the number, order, names, base URLs, API
    keys and other fields of the providers are as they were. *)
Theorem update_models_keeps_document_shape (get : http) (c : config) (s : store) :
  file s = Some c ->
  exists c', file (snd (Cli.update_models get s)) = Some c' /\
    Router c' = Router c /\ rest c' = rest c /\
    map provider_shape (providers_of c') = map provider_shape (providers_of c).
Proof.
  intros Hf. pose proof ro_report. pose proof process_provider_keeps_shape.
  assert (Hu : keeps_shape (Cli.update_models get)) by (unfold Cli.update_models; shape_steps).
  exact (Hu s c Hf).
Qed.

Lemma update_models_keeps_document_shape_witness :
  exists c', file (snd (Cli.update_models serve_m3 (empty_store dup_names_doc))) = Some c' /\
    Router c' = Router dup_names_doc /\ rest c' = rest dup_names_doc /\
    map provider_shape (providers_of c') = map provider_shape (providers_of dup_names_doc).
Proof. exact (update_models_keeps_document_shape serve_m3 dup_names_doc (empty_store dup_names_doc) eq_refl). Defined.





Lemma list_ascii_of_string_app (a b : string) :
  list_ascii_of_string (a ++ b) = app (list_ascii_of_string a) (list_ascii_of_string b).
Proof. induction a as [|ch a IH]; simpl; [reflexivity|now rewrite IH]. Qed.

Lemma rstrip_slash_snoc_slash (b : string) : rstrip_slash (b ++ "/") = rstrip_slash b.
Proof.
  unfold rstrip_slash. rewrite list_ascii_of_string_app. simpl list_ascii_of_string.
  rewrite rev_app_distr. reflexivity.
Qed.

(** X19.  A trailing slash makes no difference to
    [validate_provider_endpoint]: it removes every trailing slash before
    probing, so [base_url ++ "/"] is probed and answered exactly like
    [base_url]. *)
Theorem validate_provider_endpoint_trailing_slash (get : http) (base_url : string) :
  ConfigManager.validate_provider_endpoint get (base_url ++ "/")
  = ConfigManager.validate_provider_endpoint get base_url.
Proof.
  unfold ConfigManager.validate_provider_endpoint. now rewrite rstrip_slash_snoc_slash.
Qed.

Ltac ne_tac :=
  let e := fresh "e" in let H := fresh "H" in
  intros e H;
  repeat match type of H with
         | context [match ?x with _ => _ end] =>
             lazymatch x with
             | match _ with _ => _ end => fail
             | _ => destruct x
             end
         end;
  try discriminate; injection H as <-; exact I.

Lemma ne_exit_py_set v : ne_exit (py_set v).
Proof. unfold py_set, py_iter. ne_tac. Qed.

Lemma ne_exit_py_contains_str k v : ne_exit (py_contains_str k v).
Proof. unfold py_contains_str. ne_tac. Qed.

Lemma ne_exit_py_getitem_str k v : ne_exit (py_getitem_str k v).
Proof. unfold py_getitem_str. ne_tac. Qed.

Lemma ne_exit_getitem_iter k v :
  ne_exit (match py_getitem_str k v with Ok x => py_iter x | Err e => Err e end).
Proof. unfold py_getitem_str, py_iter. ne_tac. Qed.

Lemma ne_exit_collect_ids items : ne_exit (collect_ids items).
Proof.
  induction items as [|item items IH]; simpl; [ne_tac|].
  intros e H.
  destruct (py_contains_str "id" item) as [[|]|e1] eqn:E1.
  - destruct (py_getitem_str "id" item) as [x|e2] eqn:E2.
    + destruct (collect_ids items) as [xs|e3]; [discriminate|].
      injection H as <-. now apply IH.
    + injection H as <-. exact (ne_exit_py_getitem_str _ _ _ E2).
  - exact (IH e H).
  - injection H as <-. exact (ne_exit_py_contains_str _ _ _ E1).
Qed.

Lemma ne_exit_join_str xs : ne_exit (join_str xs).
Proof.
  induction xs as [|x xs IH]; simpl; [ne_tac|].
  intros e H. destruct x; try (injection H as <-; exact I).
  destruct xs as [|y ys]; [discriminate|].
  destruct (join_str (y :: ys)) as [r|e1] eqn:E; [discriminate|].
  injection H as <-. now apply IH.
Qed.

Lemma err_in_ret {A} P (a : A) : err_in P (ret a).
Proof. intros s e s' H. discriminate. Qed.

Lemma err_in_say P msg : err_in P (say msg).
Proof. intros s e s' H. discriminate. Qed.

Lemma err_in_raise {A} (P : exn -> Prop) e : P e -> err_in P (@raise A e).
Proof. intros He s e' s' H. injection H as <- _. exact He. Qed.

Lemma err_in_lift {A} (r : res A) : ne_exit r -> err_in not_exit (lift r).
Proof. intros Hr s e s' H. injection H as He _. exact (Hr e He). Qed.

Lemma err_in_load : err_in not_exit ConfigManager.load_config.
Proof.
  intros s e s' H. unfold ConfigManager.load_config in H.
  destruct (file s); [discriminate|]. injection H as <- _. exact I.
Qed.

Lemma err_in_bind {A B} P (m : M A) (k : A -> M B) :
  err_in P m -> (forall a, err_in P (k a)) -> err_in P (bind m k).
Proof.
  intros Hm Hk s e s' H. destruct (bind_inv _ _ _ _ _ H) as [[a [s1 [_ H2]]]|[e1 [H1 He]]].
  - exact (Hk a _ _ _ H2).
  - injection He as <-. exact (Hm _ _ _ H1).
Qed.

Lemma err_in_try_except {A} (P Q : exn -> Prop) (m : M A) h :
  err_in P m -> (forall e, P e -> h e = None -> Q e) ->
  (forall e k, P e -> h e = Some k -> err_in Q k) -> err_in Q (try_except m h).
Proof.
  intros Hm Hn Hs s e s' H. destruct (try_except_inv _ _ _ _ _ H) as [[_ [a Ha]]|[e1 [s1 [H1 Hh]]]].
  - discriminate.
  - pose proof (Hm _ _ _ H1) as Hp.
    destruct Hh as [[k [Hk Hks]]|[Hk [He ->]]].
    + exact (Hs e1 k Hp Hk _ _ _ Hks).
    + injection He as ->. exact (Hn e1 Hp Hk).
Qed.

Lemma err_in_for_each {A B} P (xs : list A) (acc : B) body :
  (forall x b, err_in P (body x b)) -> err_in P (for_each xs acc body).
Proof.
  intros Hb. revert acc. induction xs as [|x xs IH]; intros acc; simpl.
  - apply err_in_ret.
  - apply err_in_bind; [apply Hb | intros; apply IH].
Qed.

Create HintDb errin.
#[local] Hint Resolve err_in_ret err_in_say err_in_load ne_exit_py_set ne_exit_py_contains_str
  ne_exit_py_getitem_str ne_exit_getitem_iter ne_exit_collect_ids ne_exit_join_str : errin.

(** Steps for [err_in not_exit]: the handlers met on the way turn
    exceptions into [say]s and results. *)
Ltac errin_steps :=
  repeat match goal with
         | |- err_in _ _ => solve [auto with errin]
         | |- err_in _ (lift _) => apply err_in_lift
         | |- ne_exit _ => solve [auto with errin]
         | |- err_in _ (raise _) => apply err_in_raise; exact I
         | |- err_in _ (bind _ _) => apply err_in_bind; [|intro]
         | |- err_in _ (try_except _ _) =>
             apply err_in_try_except with (P := not_exit);
             [| let e := fresh "e" in intros e ? ?; destruct e; simpl in *; first [discriminate | exact I | contradiction]
              | let e := fresh "e" in let k := fresh "k" in let Hk := fresh "Hk" in
                intros e k ? Hk; destruct e; simpl in Hk; try discriminate; injection Hk as <-]
         | |- err_in _ (for_each _ _ _) => apply err_in_for_each; intros; cbv beta
         | |- err_in _ (match ?x with _ => _ end) => destruct x
         end.

Lemma err_in_get_router_config : err_in not_exit ConfigManager.get_router_config.
Proof. unfold ConfigManager.get_router_config. errin_steps. Qed.

Lemma err_in_get_providers : err_in not_exit ConfigManager.get_providers.
Proof. unfold ConfigManager.get_providers. errin_steps. Qed.

Lemma err_in_save c : err_in not_exit (ConfigManager.save_config c).
Proof. intros s e s' H. discriminate. Qed.
#[local] Hint Resolve err_in_get_router_config err_in_get_providers err_in_save : errin.

Lemma err_in_add_model_to_provider pn x : err_in not_exit (ConfigManager.add_model_to_provider pn x).
Proof. unfold ConfigManager.add_model_to_provider. errin_steps. Qed.

Lemma err_in_delete_model x : err_in not_exit (ConfigManager.delete_model x).
Proof. unfold ConfigManager.delete_model. errin_steps. Qed.
#[local] Hint Resolve err_in_add_model_to_provider err_in_delete_model : errin.

Lemma err_in_models_of_body url data : err_in not_exit (Cli.models_of_body url data).
Proof. unfold Cli.models_of_body. errin_steps. Qed.
#[local] Hint Resolve err_in_models_of_body : errin.

Lemma err_in_fetch_loop get h urls : err_in not_exit (Cli.fetch_loop get h urls).
Proof. induction urls as [|u urls IH]; simpl; [errin_steps|]. destruct (get u h); errin_steps. Qed.
#[local] Hint Resolve err_in_fetch_loop : errin.

Lemma err_in_fetch get u k : err_in not_exit (Cli.fetch_models_from_endpoint get u k).
Proof. unfold Cli.fetch_models_from_endpoint. errin_steps. Qed.
#[local] Hint Resolve err_in_fetch : errin.

Lemma err_in_reconcile pn cur fetched st : err_in not_exit (Cli.reconcile_provider pn cur fetched st).
Proof. unfold Cli.reconcile_provider. errin_steps. Qed.
#[local] Hint Resolve err_in_reconcile : errin.

Lemma err_in_process_provider get p st : err_in not_exit (Cli.process_provider get p st).
Proof. unfold Cli.process_provider. errin_steps. Qed.
#[local] Hint Resolve err_in_process_provider : errin.

Lemma err_in_say_entries xs : err_in not_exit (Cli.say_entries xs).
Proof. induction xs as [|[p m] xs IH]; simpl; errin_steps. Qed.
#[local] Hint Resolve err_in_say_entries : errin.

Lemma err_in_report st : err_in not_exit (Cli.report st).
Proof. unfold Cli.report. errin_steps. Qed.
#[local] Hint Resolve err_in_report : errin.



Lemma aset_keys_iff {V} k (v : V) d x :
  In x (map fst (aset k v d)) <-> x = k \/ In x (map fst d).
Proof.
  split; [apply aset_keys_in|].
  induction d as [|[k' v'] d IH]; simpl.
  - intros [->|[]]. now left.
  - destruct (String.eqb k k') eqn:E; simpl.
    + apply String.eqb_eq in E. subst. intros [->|[->|H]]; auto.
    + intros [->|[->|H]]; [right; apply IH; now left|now left|right; apply IH; now right].
Qed.

Lemma aset_in {V} k (v : V) d kv : In kv (aset k v d) -> kv = (k, v) \/ In kv d.
Proof.
  induction d as [|[k' v'] d IH]; simpl.
  - intros [<-|[]]. now left.
  - destruct (String.eqb k k') eqn:E; simpl.
    + apply String.eqb_eq in E. subst. intros [<-|H]; auto.
    + intros [<-|H]; auto. destruct (IH H); auto.
Qed.

Lemma fold_aset_keys ps d0 n :
  In n (map fst (fold_left (fun d p => aset (name p) (models_of p) d) ps d0))
  <-> In n (map fst d0) \/ In n (map name ps).
Proof.
  revert d0. induction ps as [|p ps IH]; intros d0; simpl; [tauto|].
  rewrite IH, aset_keys_iff. split; intros H; intuition congruence.
Qed.

Lemma fold_aset_values ps d0 kv :
  In kv (fold_left (fun d p => aset (name p) (models_of p) d) ps d0) ->
  In kv d0 \/ exists p, In p ps /\ snd kv = models_of p.
Proof.
  revert d0. induction ps as [|p ps IH]; intros d0 H; simpl in *; [now left|].
  destruct (IH _ H) as [H1|[q [Hq Hs]]].
  - destruct (aset_in _ _ _ _ H1) as [->|H2]; [right; exists p; auto|now left].
  - right. exists q. auto.
Qed.

Lemma all_models_of_length ps :
  length (all_models_of ps) = length (nodup string_dec (map name ps)).
Proof.
  assert (Hk : forall n, In n (map fst (all_models_of ps)) <-> In n (nodup string_dec (map name ps))).
  { intros n. unfold all_models_of. rewrite fold_aset_keys, nodup_In. simpl. tauto. }
  assert (H1 : NoDup (map fst (all_models_of ps))) by (apply fold_aset_nodup; constructor).
  pose proof (NoDup_nodup string_dec (map name ps)) as H2.
  rewrite <- (length_map fst (all_models_of ps)).
  apply Nat.le_antisymm; apply NoDup_incl_length; auto; intros n; apply Hk.
Qed.

Lemma join_str_strings ms :
  (forall m, In m ms -> exists t, m = JStr t) -> exists r, join_str ms = Ok r.
Proof.
  induction ms as [|m ms IH]; intros H; [now exists ""|].
  destruct (H m (or_introl eq_refl)) as [t ->].
  destruct ms as [|m' ms'].
  - now exists t.
  - destruct IH as [r Hr]; [intros x Hx; apply H; now right|].
    simpl in Hr |- *. rewrite Hr. destruct m'; try discriminate.
    + eexists. reflexivity.
Qed.

(** The row loop of [list_models], when every model is a string. *)
Lemma list_models_rows f w cs (d : list (string * list json)) :
  (forall kv, In kv d -> forall m, In m (snd kv) -> exists t, m = JStr t) ->
  exists rows,
    for_each d tt (fun kv _ =>
      match kv with
      | (provider, []) => say (provider ++ " | [red]No models[/red]")
      | (provider, ms) =>
          match join_str ms with
          | Ok s => say (provider ++ " | " ++ s)
          | Err e => raise e
          end
      end) (mkStore f w cs) = (Ok tt, mkStore f w (app cs rows)) /\ length rows = length d.
Proof.
  revert cs. induction d as [|[n ms] d IH]; intros cs Hs; cbn [for_each].
  - exists []. unfold ret. now rewrite app_nil_r.
  - assert (Hd : forall kv, In kv d -> forall m, In m (snd kv) -> exists t, m = JStr t)
      by (intros kv Hkv; apply Hs; now right).
    assert (Hrow : exists row, (match (n, ms) with
                                | (provider, []) => say (provider ++ " | [red]No models[/red]")
                                | (provider, ms) =>
                                    match join_str ms with
                                    | Ok s => say (provider ++ " | " ++ s)
                                    | Err e => raise e
                                    end
                                end) (mkStore f w cs) = (Ok tt, mkStore f w (app cs [row]))).
    { destruct ms as [|m ms'].
      - eexists. reflexivity.
      - destruct (join_str_strings (m :: ms')) as [r Hr].
        + intros x Hx. exact (Hs (n, m :: ms') (or_introl eq_refl) x Hx).
        + exists (n ++ " | " ++ r). cbv iota beta. rewrite Hr. reflexivity. }
    destruct Hrow as [row Hrow].
    unfold bind at 1. rewrite Hrow.
    destruct (IH (app cs [row]) Hd) as [rows [Hr Hl]].
    exists (row :: rows). rewrite Hr, <- app_assoc. simpl. now rewrite Hl.
Qed.







Lemma group_fold_aget p xs (d0 : list (string * list json)) :
  aget p (fold_left (fun (d : list (string * list json)) (pm : string * json) =>
                       let (p', m) := pm in
                       match aget p' d with
                       | Some ms => aset p' (app ms [m]) d
                       | None => aset p' [m] d
                       end) xs d0)
  = match aget p d0, models_for p xs with
    | Some ms, l => Some (app ms l)
    | None, [] => None
    | None, l => Some l
    end.
Proof.
  unfold models_for. revert d0. induction xs as [|[p' m] xs IH]; intros d0; simpl.
  - destruct (aget p d0); [now rewrite app_nil_r|reflexivity].
  - rewrite IH. rewrite (String.eqb_sym p' p).
    destruct (String.eqb p p') eqn:E.
    + apply String.eqb_eq in E. subst p'. simpl.
      destruct (aget p d0) as [ms|] eqn:Ea; rewrite aget_aset_same.
      * now rewrite <- app_assoc.
      * reflexivity.
    + destruct (aget p' d0); rewrite aget_aset, E; reflexivity.
Qed.

Lemma group_fold_nodup xs (d0 : list (string * list json)) :
  NoDup (map fst d0) ->
  NoDup (map fst (fold_left (fun (d : list (string * list json)) (pm : string * json) =>
                       let (p', m) := pm in
                       match aget p' d with
                       | Some ms => aset p' (app ms [m]) d
                       | None => aset p' [m] d
                       end) xs d0)).
Proof.
  revert d0. induction xs as [|[p' m] xs IH]; intros d0 H; simpl; [exact H|].
  apply IH. destruct (aget p' d0); now apply aset_nodup.
Qed.

(** X24.  The retained-models report of [ccs update] groups the entries
    by provider: each provider appears in one group, and its group lists
    exactly that provider's entries, in their order. *)
Theorem group_by_provider_groups (xs : list (string * json)) :
  NoDup (map fst (Cli.group_by_provider xs)) /\
  forall p, aget p (Cli.group_by_provider xs)
            = match models_for p xs with [] => None | l => Some l end.
Proof.
  unfold Cli.group_by_provider. split.
  - apply group_fold_nodup. constructor.
  - intros p. rewrite group_fold_aget. reflexivity.
Qed.
